(** * Spot: path-parameter parser and Express server generator

    A shallow embedding of
      - [lib/src/parsers/path-params-parser.ts]
      - [lib/src/generators/typescript/express-server.ts]
    together with the properties of these two files that the specification
    states.

    Conventions.
    - A JavaScript string is a [string]: a sequence of code units below 256.
    - [undefined] / [null] are [None].
    - A function that may throw returns a [Completion].
    - A JavaScript object used as a map is the list of its own enumerable
      properties in the order [Object.keys] / [Object.entries] yield them. *)

From Stdlib Require Import String Ascii List ZArith NArith Bool Lia.
From Stdlib Require Import Permutation Sorted.
Import ListNotations.
Local Open Scope list_scope.
Local Open Scope string_scope.

Set Implicit Arguments.

(* ===================================================================== *)
(** * The JavaScript built-ins the two files call *)
(* ===================================================================== *)

Module JS.

(** ** Strings *)

(** WhiteSpace and LineTerminator code units (ECMA-262, below 256). *)
Definition isWhiteSpace (c : ascii) : bool :=
  let n := N_of_ascii c in
  ((9 <=? n) && (n <=? 13) || (n =? 32) || (n =? 160))%N.

Fixpoint trimStart (s : string) : string :=
  match s with
  | String c s' => if isWhiteSpace c then trimStart s' else s
  | EmptyString => EmptyString
  end.

Fixpoint trimEnd (s : string) : string :=
  match s with
  | String c s' =>
      match trimEnd s' with
      | EmptyString => if isWhiteSpace c then EmptyString else String c EmptyString
      | r => String c r
      end
  | EmptyString => EmptyString
  end.

(** [String.prototype.trim] *)
Definition trim (s : string) : string := trimEnd (trimStart s).

(** [s.split(sep)] for a one-character separator; never the empty list. *)
Fixpoint split (sep : ascii) (s : string) : list string :=
  match s with
  | EmptyString => [EmptyString]
  | String c s' =>
      if Ascii.eqb c sep then EmptyString :: split sep s'
      else match split sep s' with
           | h :: t => String c h :: t
           | [] => [String c EmptyString]
           end
  end.

Definition LF : ascii := ascii_of_N 10.
Definition DQUOTE : ascii := ascii_of_N 34.

(** [s.startsWith(c)] and [s.endsWith(c)] for a one-character argument. *)
Definition startsWith (s : string) (c : ascii) : bool :=
  match s with
  | String d _ => Ascii.eqb d c
  | EmptyString => false
  end.

Fixpoint endsWith (s : string) (c : ascii) : bool :=
  match s with
  | EmptyString => false
  | String d EmptyString => Ascii.eqb d c
  | String _ s' => endsWith s' c
  end.

(** [x > y] on strings: lexicographic on code units. *)
Definition gt (x y : string) : bool :=
  match String.compare x y with Gt => true | _ => false end.

Definition isUpper (c : ascii) : bool :=
  let n := N_of_ascii c in ((65 <=? n) && (n <=? 90))%N.
Definition isLower (c : ascii) : bool :=
  let n := N_of_ascii c in ((97 <=? n) && (n <=? 122))%N.
Definition isDigit (c : ascii) : bool :=
  let n := N_of_ascii c in ((48 <=? n) && (n <=? 57))%N.

(** [String.prototype.toLowerCase] on the ASCII letters (HTTP method
    names are ASCII); other code units are left as they are. *)
Definition toLowerChar (c : ascii) : ascii :=
  if isUpper c then ascii_of_N (N_of_ascii c + 32) else c.

Fixpoint toLowerCase (s : string) : string :=
  match s with
  | EmptyString => EmptyString
  | String c s' => String (toLowerChar c) (toLowerCase s')
  end.

(** [parts.join("")] *)
Definition join_empty (parts : list string) : string :=
  fold_right String.append EmptyString parts.

Fixpoint forallb_string (p : ascii -> bool) (s : string) : bool :=
  match s with
  | EmptyString => true
  | String c s' => p c && forallb_string p s'
  end.

(** ** The two regular expressions of the parser *)

(** [\w] or [-] *)
Definition isWordOrHyphen (c : ascii) : bool :=
  isUpper c || isLower c || isDigit c
  || Ascii.eqb c "_"%char || Ascii.eqb c "-"%char.

(** [/^[\w-]*$/.test(s)] *)
Definition test_name_pattern (s : string) : bool :=
  forallb_string isWordOrHyphen s.

Definition nonempty_digits (s : string) : bool :=
  match s with
  | EmptyString => false
  | _ => forallb_string isDigit s
  end.

(** [/^-?\d+$/.test(s)] on a string [s] *)
Definition test_integer_pattern (s : string) : bool :=
  match s with
  | String c s' =>
      if Ascii.eqb c "-"%char then nonempty_digits s' else nonempty_digits s
  | EmptyString => false
  end.

(** ** Truthiness *)

(** [!x] is false exactly on a non-empty string (and true on
    [undefined]). *)
Definition truthy_string (x : option string) : option string :=
  match x with
  | Some EmptyString => None
  | other => other
  end.

(** ** lodash helpers *)

(** [compact]: drops the falsy entries. Every entry the generator puts
    in is either [null] or a syntax node (an object, hence truthy). *)
Fixpoint compact {A : Type} (l : list (option A)) : list A :=
  match l with
  | [] => []
  | Some x :: l' => x :: compact l'
  | None :: l' => compact l'
  end.

(** [compact] on strings also drops the empty string. *)
Definition compact_strings (l : list (option string)) : list string :=
  compact (map truthy_string l).

(** [flatten]: one level *)
Definition flatten {A : Type} (l : list (list A)) : list A := concat l.

(** [uniq]: keeps the first occurrence of each string *)
Fixpoint uniq_aux (seen : list string) (l : list string) : list string :=
  match l with
  | [] => []
  | x :: l' =>
      if existsb (String.eqb x) seen then uniq_aux seen l'
      else x :: uniq_aux (x :: seen) l'
  end.
Definition uniq (l : list string) : list string := uniq_aux [] l.

(** ** [Array.prototype.every] with a callback that updates local state

    The callback returns the new state and the value it returned to
    [every]; iteration stops at the first falsy return value. *)
Fixpoint every {S A R : Type} (toBoolean : R -> bool)
    (callback : S -> A -> S * R) (st : S) (l : list A) : S :=
  match l with
  | [] => st
  | x :: l' =>
      let '(st', r) := callback st x in
      if toBoolean r then every toBoolean callback st' l' else st'
  end.

(** ** [Array.prototype.sort(comparefn)]

    ECMA-262 leaves the algorithm to the engine; the model is the stable
    insertion sort that engines run on short arrays: the elements are
    taken from left to right, and each one goes in front of the first
    element of the already sorted prefix for which [comparefn] answers a
    negative number. *)
Fixpoint sort_insert {A : Type} (comparefn : A -> A -> Z) (x : A)
    (sorted : list A) : list A :=
  match sorted with
  | [] => [x]
  | y :: l => if (comparefn x y <? 0)%Z then x :: y :: l
              else y :: sort_insert comparefn x l
  end.

Definition sort {A : Type} (comparefn : A -> A -> Z) (l : list A) : list A :=
  fold_left (fun sorted x => sort_insert comparefn x sorted) l [].

(** ** JSON values *)

(** A Number, written [(-1)^neg * mantissa * 10^exponent]. The model is
    exact: it agrees with IEEE doubles on the decimal literals of up to
    15 significant digits, which a double holds without loss. *)
Record Number := mkNumber { neg : bool; mantissa : N; exponent : Z }.

#[warnings="-register-all"]
Inductive Value :=
| VNull
| VBoolean (b : bool)
| VNumber (n : Number)
| VString (s : string)
| VArray (elements : list Value)
| VObject (properties : list (string * Value)).

Definition digit_char (d : N) : ascii := ascii_of_N (48 + d).

Fixpoint digits_fuel (fuel : nat) (n : N) (acc : string) : string :=
  match fuel with
  | O => acc
  | S fuel' =>
      let acc' := String (digit_char (n mod 10)) acc in
      if (n <? 10)%N then acc' else digits_fuel fuel' (n / 10) acc'
  end.

(** The decimal digits of [n], most significant first; ["0"] for 0. *)
Definition digits (n : N) : string :=
  digits_fuel (S (N.to_nat (N.log2 n))) n EmptyString.

Fixpoint zeros (k : nat) : string :=
  match k with O => EmptyString | S k' => String "0"%char (zeros k') end.

(** Drops the trailing ["0"] digits and counts them. *)
Fixpoint strip_zeros (ds : string) : string * nat :=
  match ds with
  | EmptyString => (EmptyString, O)
  | String c ds' =>
      match strip_zeros ds' with
      | (EmptyString, z) =>
          if Ascii.eqb c "0"%char then (EmptyString, S z)
          else (String c EmptyString, z)
      | (r, z) => (String c r, z)
      end
  end.

(** [Number::toString] (ECMA-262, radix 10). *)
Definition Number_toString (x : Number) : string :=
  if (mantissa x =? 0)%N then "0"
  else
    let '(ds, z) := strip_zeros (digits (mantissa x)) in
    let k := Z.of_nat (String.length ds) in
    let n := (k + exponent x + Z.of_nat z)%Z in
    let body :=
      if ((k <=? n) && (n <=? 21))%Z then
        ds ++ zeros (Z.to_nat (n - k))
      else if ((0 <? n) && (n <=? 21))%Z then
        substring 0 (Z.to_nat n) ds ++ "." ++
        substring (Z.to_nat n) (String.length ds - Z.to_nat n) ds
      else if ((-6 <? n) && (n <=? 0))%Z then
        "0." ++ zeros (Z.to_nat (- n)) ++ ds
      else
        let e := (n - 1)%Z in
        substring 0 1 ds
        ++ (if (k =? 1)%Z then EmptyString else "." ++ substring 1 (String.length ds - 1) ds)
        ++ "e" ++ (if (e <? 0)%Z then "-" else "+") ++ digits (Z.abs_N e)
    in
    (if neg x then "-" else EmptyString) ++ body.

Fixpoint join_comma (parts : list string) : string :=
  match parts with
  | [] => EmptyString
  | [p] => p
  | p :: rest => p ++ "," ++ join_comma rest
  end.

(** [String(v)], the coercion [RegExp.prototype.test] applies to its
    argument. *)
Fixpoint ToString (v : Value) : string :=
  match v with
  | VNull => "null"
  | VBoolean true => "true"
  | VBoolean false => "false"
  | VNumber n => Number_toString n
  | VString s => s
  | VArray l =>
      join_comma
        (map (fun e => match e with VNull => EmptyString | _ => ToString e end) l)
  | VObject _ => "[object Object]"
  end.

(** ** [JSON.parse] on scalar texts

    The parser takes [JSON.parse] as a parameter; this instance is the
    one the concrete runs below use. It covers [null], [true], [false],
    numbers and strings with the one-character escapes. [None] is a
    [SyntaxError]. Array and object texts and [\u] escapes are outside
    this instance (it answers [None] there). *)

Definition isJSONSpace (c : ascii) : bool :=
  let n := N_of_ascii c in
  ((n =? 9) || (n =? 10) || (n =? 13) || (n =? 32))%N.

Fixpoint skipSpace (s : string) : string :=
  match s with
  | String c s' => if isJSONSpace c then skipSpace s' else s
  | EmptyString => EmptyString
  end.

Definition unescape (c : ascii) : option ascii :=
  if Ascii.eqb c DQUOTE then Some DQUOTE
  else if Ascii.eqb c "\"%char then Some "\"%char
  else if Ascii.eqb c "/"%char then Some "/"%char
  else if Ascii.eqb c "b"%char then Some (ascii_of_N 8)
  else if Ascii.eqb c "f"%char then Some (ascii_of_N 12)
  else if Ascii.eqb c "n"%char then Some (ascii_of_N 10)
  else if Ascii.eqb c "r"%char then Some (ascii_of_N 13)
  else if Ascii.eqb c "t"%char then Some (ascii_of_N 9)
  else None.

(** The characters after the opening quote: the string's value and the
    text left after the closing quote. *)
Fixpoint parseStringBody (s : string) : option (string * string) :=
  match s with
  | EmptyString => None
  | String c s' =>
      if Ascii.eqb c DQUOTE then Some (EmptyString, s')
      else if Ascii.eqb c "\"%char then
        match s' with
        | String e s'' =>
            match unescape e, parseStringBody s'' with
            | Some d, Some (v, rest) => Some (String d v, rest)
            | _, _ => None
            end
        | EmptyString => None
        end
      else if (N_of_ascii c <? 32)%N then None
      else match parseStringBody s' with
           | Some (v, rest) => Some (String c v, rest)
           | None => None
           end
  end.

(** The longest prefix of digits, and the rest. *)
Fixpoint spanDigits (s : string) : string * string :=
  match s with
  | String c s' =>
      if isDigit c then let '(d, r) := spanDigits s' in (String c d, r)
      else (EmptyString, s)
  | EmptyString => (EmptyString, EmptyString)
  end.

Fixpoint N_of_digits_acc (s : string) (acc : N) : N :=
  match s with
  | String c s' => N_of_digits_acc s' (10 * acc + (N_of_ascii c - 48))
  | EmptyString => acc
  end.
Definition N_of_digits (s : string) : N := N_of_digits_acc s 0.

(** [int]: ["0"], or digits that do not start with ["0"]. *)
Definition validInt (ds : string) : bool :=
  match ds with
  | EmptyString => false
  | String c EmptyString => true
  | String c _ => negb (Ascii.eqb c "0"%char)
  end.

Definition parseFrac (s : string) : option (string * string) :=
  match s with
  | String "."%char s' =>
      match spanDigits s' with
      | (EmptyString, _) => None
      | (fs, rest) => Some (fs, rest)
      end
  | _ => Some (EmptyString, s)
  end.

Definition parseExp (s : string) : option (Z * string) :=
  match s with
  | String c s' =>
      if Ascii.eqb c "e"%char || Ascii.eqb c "E"%char then
        let '(sign, s'') :=
          match s' with
          | String "+"%char r => (1%Z, r)
          | String "-"%char r => ((-1)%Z, r)
          | _ => (1%Z, s')
          end in
        match spanDigits s'' with
        | (EmptyString, _) => None
        | (es, rest) => Some ((sign * Z.of_N (N_of_digits es))%Z, rest)
        end
      else Some (0%Z, s)
  | EmptyString => Some (0%Z, s)
  end.

Definition parseNumber (s : string) : option (Number * string) :=
  let '(isNeg, s1) :=
    match s with
    | String "-"%char r => (true, r)
    | _ => (false, s)
    end in
  let '(ints, s2) := spanDigits s1 in
  if validInt ints then
    match parseFrac s2 with
    | Some (fs, s3) =>
        match parseExp s3 with
        | Some (e, s4) =>
            Some (mkNumber isNeg (N_of_digits (ints ++ fs))
                    (e - Z.of_nat (String.length fs)), s4)
        | None => None
        end
    | None => None
    end
  else None.

Definition parseScalar (s : string) : option (Value * string) :=
  match s with
  | String c s' =>
      if Ascii.eqb c DQUOTE then
        match parseStringBody s' with
        | Some (v, rest) => Some (VString v, rest)
        | None => None
        end
      else if prefix "null" s then Some (VNull, substring 4 (String.length s - 4) s)
      else if prefix "true" s then
        Some (VBoolean true, substring 4 (String.length s - 4) s)
      else if prefix "false" s then
        Some (VBoolean false, substring 5 (String.length s - 5) s)
      else match parseNumber s with
           | Some (n, rest) => Some (VNumber n, rest)
           | None => None
           end
  | EmptyString => None
  end.

Definition JSON_parse_scalar (text : string) : option Value :=
  match parseScalar (skipSpace text) with
  | Some (v, rest) =>
      match skipSpace rest with
      | EmptyString => Some v
      | _ => None
      end
  | None => None
  end.

End JS.

(* ===================================================================== *)
(** * lib/src/parsers/path-params-parser.ts *)
(* ===================================================================== *)

Module PathParamsParser.
Import JS.

(** ** What the file imports from the rest of the library *)

(** Modelled from the spec: the [TypeKind] enum of [types.ts], which is
    not among the sources. The spec names these kinds; the value of a
    kind is the string that [type.kind] holds, and the spec fixes
    BOOLEAN to ["boolean"] and STRING to ["string"], the categories an
    example is compared with. *)
Inductive TypeKind :=
| STRING | INT32 | INT64 | FLOAT | DOUBLE | BOOLEAN
| ARRAY | OBJECT | REFERENCE.

Definition TypeKind_eqb (a b : TypeKind) : bool :=
  match a, b with
  | STRING, STRING | INT32, INT32 | INT64, INT64 | FLOAT, FLOAT
  | DOUBLE, DOUBLE | BOOLEAN, BOOLEAN | ARRAY, ARRAY | OBJECT, OBJECT
  | REFERENCE, REFERENCE => true
  | _, _ => false
  end.

Definition TypeKind_value (k : TypeKind) : string :=
  match k with
  | STRING => "string"
  | INT32 => "int32"
  | INT64 => "int64"
  | FLOAT => "float"
  | DOUBLE => "double"
  | BOOLEAN => "boolean"
  | ARRAY => "array"
  | OBJECT => "object"
  | REFERENCE => "reference"
  end.

(** Modelled from the spec: [Type], a tagged union over the kinds. *)
Inductive SpotType :=
| stringType | int32Type | int64Type | floatType | doubleType | booleanType
| arrayType (elementType : SpotType)
| objectType
| referenceType (name : string).

Definition kind (t : SpotType) : TypeKind :=
  match t with
  | stringType => STRING
  | int32Type => INT32
  | int64Type => INT64
  | floatType => FLOAT
  | doubleType => DOUBLE
  | booleanType => BOOLEAN
  | arrayType _ => ARRAY
  | objectType => OBJECT
  | referenceType _ => REFERENCE
  end.

(** [errors.ts]: [OptionalNotAllowedError] is a [ParserError] of its own
    class; both carry a message and a location. *)
Inductive ErrorClass := ParserErrorClass | OptionalNotAllowedErrorClass.

Record Location := { file : string; position : Z }.

Record ParserError :=
  { errorClass : ErrorClass; message : string; location : Location }.

Definition newParserError (msg : string) (loc : Location) : ParserError :=
  {| errorClass := ParserErrorClass; message := msg; location := loc |}.

Definition newOptionalNotAllowedError (msg : string) (loc : Location)
  : ParserError :=
  {| errorClass := OptionalNotAllowedErrorClass; message := msg;
     location := loc |}.

(** [util.ts]: [Result] *)
Inductive Result (T E : Type) :=
| ok (value : T)
| err (error : E).
Arguments ok {T E} value.
Arguments err {T E} error.

(** A call either completes with a value or throws. *)
Inductive Completion (A : Type) :=
| Normal (a : A)
| Throw (what : string).
Arguments Normal {A} a.
Arguments Throw {A} what.

Definition bind {A B : Type} (c : Completion A) (k : A -> Completion B)
  : Completion B :=
  match c with
  | Normal a => k a
  | Throw w => Throw w
  end.

Notation "x <- c ;; k" := (bind c (fun x => k))
  (at level 61, c at next level, right associativity).

(** [definitions.ts] *)
Record Example := { example_name : string; example_value : Value }.

Record PathParam :=
  { name : string;
    type : SpotType;
    description : option string;
    examples : option (list Example) }.

(** ** The ts-morph nodes, as far as the parser reads them *)

Record JSDocTag := { getTagName : string; getComment : option string }.

Record JSDoc := { getDescription : string; getTags : list JSDocTag }.

Section Parser.

(** The type node of a property is only handed to [parseType]. *)
Variable TypeNode : Type.
Variable TypeTable : Type.
Variable LociTable : Type.

(** [type-parser.ts] and [http.ts] are used as black boxes. *)
Variable parseType :
  TypeNode -> TypeTable -> LociTable -> Result SpotType ParserError.
Variable isPathParamTypeSafe : SpotType -> TypeTable -> bool.

(** [JSON.parse]; [None] is a thrown [SyntaxError]. *)
Variable JSON_parse : string -> option Value.

Record PropertySignature :=
  { getPropertyName : string;
    prop_questionToken : option Z;
    prop_typeNode : option TypeNode;
    getJsDoc : option JSDoc;
    prop_filePath : string;
    prop_pos : Z }.

Record ParameterDeclaration :=
  { decorators : list string;
    param_questionToken : option Z;
    param_typeLiteral : option (list PropertySignature);
    param_filePath : string }.

Definition hasQuestionToken (q : option Z) : bool :=
  match q with Some _ => true | None => false end.

Definition getQuestionTokenNodeOrThrow (q : option Z) : Completion Z :=
  match q with
  | Some pos => Normal pos
  | None => Throw "Expected to find a question token."
  end.

Definition getDecoratorOrThrow (parameter : ParameterDeclaration)
    (decorator : string) : Completion unit :=
  if existsb (String.eqb decorator) (decorators parameter) then Normal tt
  else Throw "Expected to find a decorator.".

Definition getParameterTypeAsTypeLiteralOrThrow
    (parameter : ParameterDeclaration)
  : Completion (list PropertySignature) :=
  match param_typeLiteral parameter with
  | Some properties => Normal properties
  | None => Throw "expected parameter value to be a type literal object"
  end.

Definition getTypeNodeOrThrow (p : PropertySignature)
  : Completion TypeNode :=
  match prop_typeNode p with
  | Some node => Normal node
  | None => Throw "Expected to find a type node."
  end.

Definition here (p : PropertySignature) : Location :=
  {| file := prop_filePath p; position := prop_pos p |}.

(** ** [extractPathParamExamples] *)

(** What the callback of [every] hands back: a boolean, or a [Result]
    object. *)
Inductive CallbackReturn :=
| RetBoolean (b : bool)
| RetObject (r : Result (list Example) ParserError).

Definition ToBoolean (r : CallbackReturn) : bool :=
  match r with
  | RetBoolean b => b
  | RetObject _ => true
  end.

(** The two locals the callback assigns to: [examples] and
    [exampleError]. *)
Record LoopState :=
  { st_examples : list Example;
    st_exampleError : option (Result (list Example) ParserError) }.

Definition lineOf (example : option string) (i : nat) : option string :=
  match example with
  | Some e => option_map trim (nth_error (split LF e) i)
  | None => None
  end.

Definition unquoted (exampleValue : string) : bool :=
  negb (startsWith exampleValue DQUOTE)
  || negb (endsWith exampleValue DQUOTE).

(** The callback of [rawExamples.every]. Three of its branches assign
    [exampleError] and return [false]; the branch for an unquoted value of
    a STRING property is [return err(...)]: it assigns nothing and returns
    the error object. *)
Definition exampleCallback (p : PropertySignature) (type : SpotType)
    (st : LoopState) (example : option string)
  : LoopState * CallbackReturn :=
  let exampleName := lineOf example 0 in
  let exampleValue := lineOf example 1 in
  match truthy_string exampleName, truthy_string exampleValue with
  | Some exampleName, Some exampleValue =>
      if existsb (fun ex => String.eqb (example_name ex) exampleName)
           (st_examples st)
      then
        ({| st_examples := st_examples st;
            st_exampleError :=
              Some (err (newParserError
                           "@pathParams duplicate example name" (here p)))
         |}, RetBoolean false)
      else if TypeKind_eqb (kind type) STRING && unquoted exampleValue
      then
        (st, RetObject
               (err (newParserError
                       "@pathParams string examples must be quoted"
                       (here p))))
      else
        match JSON_parse exampleValue with
        | Some parsedValue =>
            ({| st_examples :=
                  (st_examples st ++
                   [{| example_name := exampleName;
                       example_value := parsedValue |}])%list;
                st_exampleError := st_exampleError st |},
             RetBoolean true)
        | None =>
            ({| st_examples := st_examples st;
                st_exampleError :=
                  Some (err (newParserError
                               "could not parse @pathParams example"
                               (here p))) |},
             RetBoolean false)
        end
  | _, _ =>
      ({| st_examples := st_examples st;
          st_exampleError :=
            Some (err (newParserError "@pathParams malformed example"
                         (here p))) |},
       RetBoolean false)
  end.

Definition typeOf (value : Value) : string :=
  if test_integer_pattern (ToString value) then "number"
  else match value with
       | VBoolean _ => "boolean"
       | _ => "string"
       end.

(** [spotTypesToJSTypesMap.get(kind)] *)
Definition spotTypesToJSTypesMap_get (k : TypeKind) : option string :=
  match k with
  | INT32 | INT64 | FLOAT | DOUBLE => Some "number"
  | _ => None
  end.

Definition typeSpecified (type : SpotType) : string :=
  match truthy_string (spotTypesToJSTypesMap_get (kind type)) with
  | Some js => js
  | None => TypeKind_value (kind type)
  end.

Definition rawExamplesOf (p : PropertySignature)
  : option (list (option string)) :=
  option_map
    (fun doc =>
       map getComment
         (filter (fun tag => String.eqb (getTagName tag) "example")
            (getTags doc)))
    (getJsDoc p).

Definition isUndefined (x : option string) : bool :=
  match x with None => true | Some _ => false end.

Definition extractPathParamExamples (p : PropertySignature)
    (type : SpotType)
  : option (Result (list Example) ParserError) :=
  match rawExamplesOf p with
  | None => None
  | Some rawExamples =>
      if existsb isUndefined rawExamples then
        Some (err (newParserError "@pathParams example must not be empty"
                     (here p)))
      else if (0 <? length rawExamples)%nat then
        let st :=
          every ToBoolean (exampleCallback p type)
            {| st_examples := []; st_exampleError := None |}
            rawExamples in
        match st_exampleError st with
        | Some exampleError => Some exampleError
        | None =>
            let typeOfExamples :=
              map (fun ex => typeOf (example_value ex)) (st_examples st) in
            if existsb
                 (fun typeOfExample =>
                    negb (String.eqb typeOfExample (typeSpecified type)))
                 typeOfExamples
            then
              Some (err (newParserError
                "@pathParams type of example must match type of param"
                (here p)))
            else Some (ok (st_examples st))
        end
      else None
  end.

(** ** [extractPathParamName] *)

Definition extractPathParamName (p : PropertySignature)
  : Result string ParserError :=
  let name := getPropertyName p in
  if negb (test_name_pattern name) then
    err (newParserError
      "@pathParams property name may only contain alphanumeric, underscore and hyphen characters"
      (here p))
  else if (String.length name =? 0)%nat then
    err (newParserError "@pathParams property name must not be empty"
           (here p))
  else ok name.

(** ** [extractPathParamType] *)

Definition extractPathParamType (p : PropertySignature)
    (typeTable : TypeTable) (lociTable : LociTable)
  : Completion (Result SpotType ParserError) :=
  node <- getTypeNodeOrThrow p ;;
  let typeResult := parseType node typeTable lociTable in
  match typeResult with
  | err _ => Normal typeResult
  | ok t =>
      if negb (isPathParamTypeSafe t typeTable) then
        Normal (err (newParserError
          "path parameter type may only be a URL-safe type, or an array of URL-safe types"
          (here p)))
      else Normal typeResult
  end.

(** ** [extractPathParam] *)

Definition extractPathParam (p : PropertySignature)
    (typeTable : TypeTable) (lociTable : LociTable)
  : Completion (Result PathParam ParserError) :=
  if hasQuestionToken (prop_questionToken p) then
    pos <- getQuestionTokenNodeOrThrow (prop_questionToken p) ;;
    Normal (err (newOptionalNotAllowedError
                   "@pathParams property cannot be optional"
                   {| file := prop_filePath p; position := pos |}))
  else
    match extractPathParamName p with
    | err e => Normal (err e)
    | ok name =>
        typeResult <- extractPathParamType p typeTable lociTable ;;
        match typeResult with
        | err e => Normal (err e)
        | ok type =>
            let description :=
              option_map (fun doc => trim (getDescription doc))
                (getJsDoc p) in
            match extractPathParamExamples p type with
            | Some (err e) => Normal (err e)
            | Some (ok examples) =>
                Normal (ok {| name := name; type := type;
                              description := description;
                              examples := Some examples |})
            | None =>
                Normal (ok {| name := name; type := type;
                              description := description;
                              examples := None |})
            end
        end
    end.

(** ** [parsePathParams] *)

(** The [for ... of] loop: the first failing property ends it. *)
Fixpoint extractAll (properties : list PropertySignature)
    (typeTable : TypeTable) (lociTable : LociTable)
    (pathParams : list PathParam)
  : Completion (Result (list PathParam) ParserError) :=
  match properties with
  | [] => Normal (ok pathParams)
  | propertySignature :: rest =>
      pathParamResult <-
        extractPathParam propertySignature typeTable lociTable ;;
      match pathParamResult with
      | err e => Normal (err e)
      | ok pathParam =>
          extractAll rest typeTable lociTable
            (pathParams ++ [pathParam])%list
      end
  end.

(** [(a, b) => (b.name > a.name ? -1 : 1)] *)
Definition byName (a b : PathParam) : Z :=
  if gt (name b) (name a) then (-1)%Z else 1%Z.

Definition parsePathParams (parameter : ParameterDeclaration)
    (typeTable : TypeTable) (lociTable : LociTable)
  : Completion (Result (list PathParam) ParserError) :=
  _ <- getDecoratorOrThrow parameter "pathParams" ;;
  if hasQuestionToken (param_questionToken parameter) then
    pos <- getQuestionTokenNodeOrThrow (param_questionToken parameter) ;;
    Normal (err (newOptionalNotAllowedError
                   "@pathParams parameter cannot be optional"
                   {| file := param_filePath parameter;
                      position := pos |}))
  else
    properties <- getParameterTypeAsTypeLiteralOrThrow parameter ;;
    extracted <- extractAll properties typeTable lociTable [] ;;
    match extracted with
    | err e => Normal (err e)
    | ok pathParams => Normal (ok (sort byName pathParams))
    end.

End Parser.

Arguments getPropertyName {TypeNode} p.
Arguments prop_questionToken {TypeNode} p.
Arguments prop_typeNode {TypeNode} p.
Arguments getJsDoc {TypeNode} p.
Arguments prop_filePath {TypeNode} p.
Arguments prop_pos {TypeNode} p.

End PathParamsParser.

(* ===================================================================== *)
(** * lib/src/generators/typescript/express-server.ts *)
(* ===================================================================== *)

Module ExpressServer.
Import JS.

(** What [parseInt] returns on a status-code key: an integer, or [NaN]
    ([None]). *)
Definition IntOrNaN := option Z.

Inductive Modifier := ExportKeyword | AsyncKeyword.

Definition Modifier_eqb (a b : Modifier) : bool :=
  match a, b with
  | ExportKeyword, ExportKeyword | AsyncKeyword, AsyncKeyword => true
  | _, _ => false
  end.

Inductive NodeFlags := Const.

Inductive BinaryOperator :=
| EqualsEqualsEqualsToken
| AmpersandAmpersandToken
| GreaterThanEqualsToken
| LessThanToken.

Inductive ImportClause :=
| NamespaceImport (name : string)
| NamedImports (specifiers : list string).

Section Generator.

(** The IR types of [models] and the type nodes of the TypeScript
    compiler API are only passed around. *)
Variable IRType : Type.
Variable TSTypeNode : Type.

(** ** The IR ([models], not among the sources) *)

(** Modelled from the spec: [PathComponent], [Header], [Endpoint] and
    [Api] as the data model describes them. *)
Inductive PathComponent :=
| static (content : string)
| dynamic (name : string) (type : IRType).

Record Header := { headerFieldName : string; header_type : IRType }.

Record Endpoint :=
  { method : string;
    path : list PathComponent;
    headers : list (string * Header);
    requestType : IRType;
    responseType : IRType;
    customErrorTypes : list (string * IRType);
    defaultErrorType : IRType }.

Record Api :=
  { endpoints : list (string * Endpoint);
    types : list (string * IRType) }.

(** ** The syntax nodes the generator creates *)

Record ParameterNode :=
  { parameter_name : string; parameter_type : option TSTypeNode }.

#[warnings="-register-all"]
Inductive Expression :=
| Identifier (text : string)
| StringLiteral (text : string)
| NumericLiteral (text : string)
| PropertyAccess (expression : Expression) (name : string)
| ElementAccess (expression : Expression) (index : Expression)
| Call (expression : Expression) (arguments : list Expression)
| New (expression : Expression) (arguments : list Expression)
| Await (expression : Expression)
| Binary (left : Expression) (operator : BinaryOperator)
    (right : Expression)
| TemplateExpression (head : string) (spans : list (Expression * string))
| ArrowFunction (modifiers : list Modifier)
    (parameters : list ParameterNode) (body : Statement)
with Statement :=
| ExpressionStatement (expression : Expression)
| VariableStatement (declarations : list (string * Expression))
    (flags : NodeFlags)
| If (condition : Expression) (thenStatement : Statement)
    (elseStatement : option Statement)
| Block (statements : list Statement) (multiLine : bool)
| Return
| ThrowStatement (expression : Expression)
| ImportDeclaration (importClause : ImportClause)
    (moduleSpecifier : Expression)
| FunctionDeclaration (modifiers : list Modifier) (name : string)
    (parameters : list ParameterNode) (type : TSTypeNode)
    (body : Statement).

Definition createStrictEquality (l r : Expression) : Expression :=
  Binary l EqualsEqualsEqualsToken r.

Definition createLogicalAnd (l r : Expression) : Expression :=
  Binary l AmpersandAmpersandToken r.

(** [const name = initializer] *)
Definition constStatement (name : string) (initializer : Expression)
  : Statement :=
  VariableStatement [(name, initializer)] Const.

Definition createParameter (name : string) : ParameterNode :=
  {| parameter_name := name; parameter_type := None |}.

Definition createTypedParameter (name : string) (t : TSTypeNode)
  : ParameterNode :=
  {| parameter_name := name; parameter_type := Some t |}.

(** ** What the file imports from the rest of the generator *)

Variable isVoid : Api -> IRType -> bool.
Variable outputTypeScriptSource : list Statement -> string.
Variable typeNode : IRType -> TSTypeNode.
Variable promiseTypeNode : IRType -> TSTypeNode.
Variable endpointPropertyTypeName :
  string -> string -> option string -> string.
Variable validatorName : string -> string.
Variable validateStatement :
  Expression -> string -> string -> Statement.
Variable gatherTypes : Endpoint -> list IRType.
(** [t.kind === "type-reference" ? t.typeName : null] *)
Variable typeReferenceName : IRType -> option string.
Variable integerConstant : IntOrNaN -> IRType.
Variable NUMBER : IRType.
Variable objectType : list (string * IRType) -> IRType.
Variable unionType : list IRType -> IRType.
Variable parseInt : string -> IntOrNaN.

Definition IMPORTED_CORS_NAME := "cors".
Definition IMPORTED_EXPRESS_NAME := "express".
Definition EXPRESS_APP_NAME := "app".
Definition PORT_NAME := "PORT".
Definition REQUEST_PARAMETER := "req".
Definition RESPONSE_PARAMETER := "res".
Definition PARSED_REQUEST_VARIABLE := "request".
Definition RESPONSE_VARIABLE := "response".

(** ** [generateValidateAndSendResponse] *)

Definition response : Expression := Identifier RESPONSE_VARIABLE.
Definition status : Expression := PropertyAccess response "status".
Definition data : Expression := PropertyAccess response "data".

Definition sendStatusAndData : list Statement :=
  [ ExpressionStatement
      (Call (PropertyAccess (Identifier RESPONSE_PARAMETER) "status")
         [status]);
    ExpressionStatement
      (Call (PropertyAccess (Identifier RESPONSE_PARAMETER) "json")
         [data]) ].

Definition customErrorBranch (endpointName statusCode : string)
  : Statement :=
  If (createStrictEquality status (NumericLiteral statusCode))
    (Block
       ([ validateStatement data
            (validatorName
               (endpointPropertyTypeName endpointName "customError"
                  (Some statusCode)))
            ("Invalid error response for status " ++ statusCode) ]
        ++ sendStatusAndData
        ++ [ Return ])%list
       true)
    None.

Definition successOrDefaultErrorBranch (endpointName : string)
  : Statement :=
  If (createLogicalAnd
        (Binary status GreaterThanEqualsToken (NumericLiteral "200"))
        (Binary status LessThanToken (NumericLiteral "300")))
    (Block
       [ validateStatement data
           (validatorName
              (endpointPropertyTypeName endpointName "response" None))
           "Invalid successful response" ]
       true)
    (Some
       (validateStatement data
          (validatorName
             (endpointPropertyTypeName endpointName "defaultError" None))
          "Invalid error response")).

Definition generateValidateAndSendResponse (endpointName : string)
    (endpoint : Endpoint) : list Statement :=
  (map (fun statusCode => customErrorBranch endpointName statusCode)
     (map fst (customErrorTypes endpoint))
   ++ [ successOrDefaultErrorBranch endpointName ]
   ++ sendStatusAndData)%list.

(** ** [generateEndpointRoute] *)

Definition pathString (endpoint : Endpoint) : string :=
  join_empty
    (map (fun pathComponent =>
            match pathComponent with
            | static content => content
            | dynamic name _ => ":" ++ name
            end)
       (path endpoint)).

Definition requestStatements (api : Api) (endpointName : string)
    (endpoint : Endpoint) : list Statement :=
  let includeRequest := negb (isVoid api (requestType endpoint)) in
  if includeRequest then
    [ constStatement PARSED_REQUEST_VARIABLE
        (PropertyAccess (Identifier REQUEST_PARAMETER) "body");
      validateStatement (Identifier PARSED_REQUEST_VARIABLE)
        (validatorName
           (endpointPropertyTypeName endpointName "request" None))
        "Invalid request" ]
  else [].

Definition pathParamStatements (endpointName : string)
    (endpoint : Endpoint) : list Statement :=
  flatten
    (compact
       (map (fun pathComponent =>
               match pathComponent with
               | dynamic name _ =>
                   Some
                     [ constStatement name
                         (PropertyAccess
                            (PropertyAccess
                               (Identifier REQUEST_PARAMETER) "params")
                            name);
                       validateStatement (Identifier name)
                         (validatorName
                            (endpointPropertyTypeName endpointName
                               "param" (Some name)))
                         ("Invalid path parameter " ++ name) ]
               | static _ => None
               end)
          (path endpoint))).

Definition headerStatements (endpointName : string)
    (endpoint : Endpoint) : list Statement :=
  flatten
    (map (fun '(headerName, header) =>
            [ constStatement headerName
                (ElementAccess
                   (PropertyAccess (Identifier REQUEST_PARAMETER)
                      "headers")
                   (StringLiteral (headerFieldName header)));
              validateStatement (Identifier headerName)
                (validatorName
                   (endpointPropertyTypeName endpointName "header"
                      (Some headerName)))
                ("Invalid header " ++ headerFieldName header) ])
       (headers endpoint)).

Definition endpointCall (api : Api) (endpointName : string)
    (endpoint : Endpoint) : Expression :=
  Call (Identifier endpointName)
    ((if isVoid api (requestType endpoint) then []
      else [Identifier PARSED_REQUEST_VARIABLE])
     ++ compact
          (map (fun pathComponent =>
                  match pathComponent with
                  | dynamic name _ => Some (Identifier name)
                  | static _ => None
                  end)
             (path endpoint))
     ++ map (fun headerName => Identifier headerName)
          (map fst (headers endpoint)))%list.

Definition generateEndpointRoute (api : Api) (endpointName : string)
    (endpoint : Endpoint) : Statement :=
  ExpressionStatement
    (Call
       (PropertyAccess (Identifier EXPRESS_APP_NAME)
          (toLowerCase (method endpoint)))
       [ StringLiteral (pathString endpoint);
         ArrowFunction [AsyncKeyword]
           [ createParameter REQUEST_PARAMETER;
             createParameter RESPONSE_PARAMETER ]
           (Block
              (requestStatements api endpointName endpoint
               ++ pathParamStatements endpointName endpoint
               ++ headerStatements endpointName endpoint
               ++ [ constStatement RESPONSE_VARIABLE
                      (Await (endpointCall api endpointName endpoint)) ]
               ++ generateValidateAndSendResponse endpointName endpoint
              )%list
              true) ]).

(** ** [generateExpressServerSource] *)

Definition importNamespace (name from : string) : Statement :=
  ImportDeclaration (NamespaceImport name) (StringLiteral from).

Definition useStatement (middleware : Expression) : Statement :=
  ExpressionStatement
    (Call (PropertyAccess (Identifier EXPRESS_APP_NAME) "use")
       [ Call middleware [] ]).

Definition listenStatement : Statement :=
  ExpressionStatement
    (Call (PropertyAccess (Identifier EXPRESS_APP_NAME) "listen")
       [ Identifier PORT_NAME;
         ArrowFunction [] []
           (Block
              [ ExpressionStatement
                  (Call (PropertyAccess (Identifier "console") "log")
                     [ TemplateExpression "Listening on port "
                         [ (Identifier PORT_NAME, EmptyString) ] ]) ]
              true) ]).

(** The array handed to [outputTypeScriptSource]. *)
Definition generateExpressServerSource_statements (api : Api)
  : list Statement :=
  ([ importNamespace IMPORTED_CORS_NAME "cors";
     importNamespace IMPORTED_EXPRESS_NAME "express";
     importNamespace "validators" "./validators" ]
   ++ map (fun endpointName =>
             ImportDeclaration (NamedImports [endpointName])
               (StringLiteral ("./endpoints/" ++ endpointName)))
        (map fst (endpoints api))
   ++ [ constStatement PORT_NAME (NumericLiteral "3020");
        constStatement EXPRESS_APP_NAME
          (Call (Identifier IMPORTED_EXPRESS_NAME) []);
        useStatement (Identifier IMPORTED_CORS_NAME);
        useStatement
          (PropertyAccess (Identifier IMPORTED_EXPRESS_NAME) "json") ]
   ++ map (fun '(endpointName, endpoint) =>
             generateEndpointRoute api endpointName endpoint)
        (endpoints api)
   ++ [ listenStatement ])%list.

Definition generateExpressServerSource (api : Api) : string :=
  outputTypeScriptSource (generateExpressServerSource_statements api).

(** ** [generateEndpointHandlerSource] *)

Definition getTypeNamesForEndpoint (endpoint : Endpoint) : list string :=
  uniq (compact_strings (map typeReferenceName (gatherTypes endpoint))).

Definition handlerParameters (api : Api) (endpoint : Endpoint)
  : list ParameterNode :=
  ((if isVoid api (requestType endpoint) then []
    else [ createTypedParameter "request"
             (typeNode (requestType endpoint)) ])
   ++ compact
        (map (fun pathComponent =>
                match pathComponent with
                | dynamic name type =>
                    Some (createTypedParameter name (typeNode type))
                | static _ => None
                end)
           (path endpoint))
   ++ map (fun '(headerName, header) =>
             createTypedParameter headerName
               (typeNode (header_type header)))
        (headers endpoint))%list.

Definition handlerReturnType (endpoint : Endpoint) : TSTypeNode :=
  promiseTypeNode
    (unionType
       ([ objectType
            [ ("status", integerConstant (Some 200%Z));
              ("data", responseType endpoint) ] ]
        ++ map (fun '(statusCode, type) =>
                  objectType
                    [ ("status", integerConstant (parseInt statusCode));
                      ("data", type) ])
             (customErrorTypes endpoint)
        ++ [ objectType
               [ ("status", NUMBER);
                 ("data", defaultErrorType endpoint) ] ])%list).

(** The array handed to [outputTypeScriptSource]. *)
Definition generateEndpointHandlerSource_statements (api : Api)
    (endpointName : string) (endpoint : Endpoint) : list Statement :=
  let typeNames := getTypeNamesForEndpoint endpoint in
  ((if (0 <? length typeNames)%nat then
      [ ImportDeclaration (NamedImports typeNames)
          (StringLiteral "../types") ]
    else [])
   ++ [ FunctionDeclaration [ExportKeyword; AsyncKeyword] endpointName
          (handlerParameters api endpoint)
          (handlerReturnType endpoint)
          (Block
             [ ThrowStatement
                 (New (Identifier "Error")
                    [ StringLiteral
                        ("Endpoint " ++ endpointName
                         ++ " is not yet implemented!") ]) ]
             true) ])%list.

Definition generateEndpointHandlerSource (api : Api)
    (endpointName : string) (endpoint : Endpoint) : string :=
  outputTypeScriptSource
    (generateEndpointHandlerSource_statements api endpointName endpoint).

End Generator.

Arguments static {IRType} content.
Arguments dynamic {IRType} name type.
Arguments Identifier {TSTypeNode} text.
Arguments StringLiteral {TSTypeNode} text.
Arguments NumericLiteral {TSTypeNode} text.
Arguments PropertyAccess {TSTypeNode} expression name.
Arguments ElementAccess {TSTypeNode} expression index.
Arguments Call {TSTypeNode} expression arguments.
Arguments New {TSTypeNode} expression arguments.
Arguments Await {TSTypeNode} expression.
Arguments Binary {TSTypeNode} left operator right.
Arguments TemplateExpression {TSTypeNode} head spans.
Arguments ArrowFunction {TSTypeNode} modifiers parameters body.
Arguments ExpressionStatement {TSTypeNode} expression.
Arguments VariableStatement {TSTypeNode} declarations flags.
Arguments If {TSTypeNode} condition thenStatement elseStatement.
Arguments Block {TSTypeNode} statements multiLine.
Arguments Return {TSTypeNode}.
Arguments ThrowStatement {TSTypeNode} expression.
Arguments ImportDeclaration {TSTypeNode} importClause moduleSpecifier.
Arguments FunctionDeclaration {TSTypeNode} modifiers name parameters type body.
Arguments status {TSTypeNode}.
Arguments data {TSTypeNode}.
Arguments response {TSTypeNode}.
Arguments sendStatusAndData {TSTypeNode}.

End ExpressServer.

(* ===================================================================== *)
(** * The vocabulary of the specification *)
(* ===================================================================== *)

Module PathParamsSpec.
Import JS PathParamsParser.

(** Ascending lexicographic order of names. *)
Definition nameLt (a b : PathParam) : Prop :=
  String.ltb (name a) (name b) = true.

(** The name line and the value line of an [@example] comment, trimmed;
    [None] when the line is missing or blank. *)
Definition exampleNameOf (comment : string) : option string :=
  truthy_string (lineOf (Some comment) 0).

Definition exampleValueOf (comment : string) : option string :=
  truthy_string (lineOf (Some comment) 1).

(** An example has both lines. *)
Definition wellFormed (comment : string) : bool :=
  match exampleNameOf comment, exampleValueOf comment with
  | Some _, Some _ => true
  | _, _ => false
  end.

(** An example has both lines, its value is a JSON text, and the value is
    enclosed in double quotes when the property is a STRING. *)
Definition acceptable (JSON_parse : string -> option Value)
    (type : SpotType) (comment : string) : bool :=
  match exampleNameOf comment, exampleValueOf comment with
  | Some _, Some v =>
      negb (TypeKind_eqb (kind type) STRING && unquoted v)
      && match JSON_parse v with Some _ => true | None => false end
  | _, _ => false
  end.

(** The failure the loop over the examples records for a repeated name. *)
Definition duplicateError (loc : Location)
  : Result (list Example) ParserError :=
  err (newParserError "@pathParams duplicate example name" loc).

(** A result that is a failure of class [cls] with message [msg], at some
    location. *)
Definition failsWith {T : Type} (cls : ErrorClass) (msg : string)
    (r : Completion (Result T ParserError)) : Prop :=
  exists loc,
    r = Normal (err {| errorClass := cls; message := msg; location := loc |}).

End PathParamsSpec.

Module ExpressServerSpec.
Import JS ExpressServer.

Section Spec.

Variable IRType : Type.
Variable TSTypeNode : Type.

(** The path template: each static component's content as it is, each
    dynamic component as [:] followed by its name, concatenated in path
    order. *)
Fixpoint routeTemplate (path : list (PathComponent IRType)) : string :=
  match path with
  | [] => EmptyString
  | static content :: rest => content ++ routeTemplate rest
  | dynamic name _ :: rest => ":" ++ name ++ routeTemplate rest
  end.

(** The dynamic components of a path, in path order. *)
Fixpoint dynamicComponents (path : list (PathComponent IRType))
  : list (string * IRType) :=
  match path with
  | [] => []
  | static _ :: rest => dynamicComponents rest
  | dynamic name type :: rest => (name, type) :: dynamicComponents rest
  end.

(** The arguments of the call of the endpoint function: the parsed
    request if the request type is not void, then the dynamic path
    components, then the headers. *)
Definition callArguments (isVoid : Api IRType -> IRType -> bool)
    (api : Api IRType) (endpoint : Endpoint IRType)
  : list (Expression TSTypeNode) :=
  ((if isVoid api (requestType endpoint) then []
    else [Identifier "request"])
   ++ map (fun '(name, _) => Identifier name)
        (dynamicComponents (path endpoint))
   ++ map (fun '(headerName, _) => Identifier headerName)
        (headers endpoint))%list.

(** The parameters of the stub, in the same order, each with its type. *)
Definition stubParameters (isVoid : Api IRType -> IRType -> bool)
    (typeNode : IRType -> TSTypeNode)
    (api : Api IRType) (endpoint : Endpoint IRType)
  : list (ParameterNode TSTypeNode) :=
  ((if isVoid api (requestType endpoint) then []
    else [ {| parameter_name := "request";
              parameter_type := Some (typeNode (requestType endpoint)) |} ])
   ++ map (fun '(name, type) =>
             {| parameter_name := name;
                parameter_type := Some (typeNode type) |})
        (dynamicComponents (path endpoint))
   ++ map (fun '(headerName, header) =>
             {| parameter_name := headerName;
                parameter_type := Some (typeNode (header_type header)) |})
        (headers endpoint))%list.

(** A route registration [app.method(path, async (...) => ...)]: its
    method name and its path string. *)
Definition asRouteRegistration (s : Statement TSTypeNode)
  : option (string * string) :=
  match s with
  | ExpressionStatement
      (Call (PropertyAccess (Identifier receiver) methodName)
         [ StringLiteral routePath; ArrowFunction modifiers _ _ ]) =>
      if String.eqb receiver "app"
         && existsb (Modifier_eqb AsyncKeyword) modifiers
      then Some (methodName, routePath)
      else None
  | _ => None
  end.

(** Whether control can reach the end of a statement: not after [return]
    or [throw], and for a block only if each of its statements lets
    control through. *)
Fixpoint canCompleteNormally (s : Statement TSTypeNode) : bool :=
  match s with
  | Return => false
  | ThrowStatement _ => false
  | Block statements _ =>
      (fix all (l : list (Statement TSTypeNode)) : bool :=
         match l with
         | [] => true
         | s' :: l' => canCompleteNormally s' && all l'
         end) statements
  | If _ thenStatement (Some elseStatement) =>
      canCompleteNormally thenStatement || canCompleteNormally elseStatement
  | _ => true
  end.

Definition isImport (s : Statement TSTypeNode) : bool :=
  match s with
  | ImportDeclaration _ _ => true
  | _ => false
  end.

End Spec.

Arguments routeTemplate {IRType} path.
Arguments dynamicComponents {IRType} path.
Arguments callArguments {IRType TSTypeNode} isVoid api endpoint.
Arguments stubParameters {IRType TSTypeNode} isVoid typeNode api endpoint.
Arguments asRouteRegistration {TSTypeNode} s.
Arguments canCompleteNormally {TSTypeNode} s.
Arguments isImport {TSTypeNode} s.

End ExpressServerSpec.

(* ===================================================================== *)
(** * Concrete declarations and endpoints *)
(* ===================================================================== *)

Module Fixtures.
Import JS PathParamsParser.

(** A type node is represented by the type it resolves to, so that
    [parseType] succeeds with that type. *)
Definition parseType (node : SpotType) (_ _ : unit)
  : Result SpotType ParserError := ok node.

(** Modelled from the spec: [isPathParamTypeSafe] of [http.ts], "a
    scalar or array-of-scalar type". *)
Definition isScalar (t : SpotType) : bool :=
  match t with
  | stringType | int32Type | int64Type | floatType | doubleType
  | booleanType => true
  | _ => false
  end.

Definition isPathParamTypeSafe (t : SpotType) (_ : unit) : bool :=
  match t with
  | arrayType e => isScalar e
  | _ => isScalar t
  end.

(** The comment of an [@example] tag: a name line and a value line. *)
Definition exampleComment (exampleName exampleValue : string) : string :=
  exampleName ++ String LF exampleValue.

Definition quoted (s : string) : string :=
  String DQUOTE s ++ String DQUOTE EmptyString.

Definition exampleTag (comment : string) : JSDocTag :=
  {| getTagName := "example"; getComment := Some comment |}.

Definition property (propertyName : string) (optional : option Z)
    (t : SpotType) (doc : option JSDoc) : PropertySignature SpotType :=
  {| getPropertyName := propertyName;
     prop_questionToken := optional;
     prop_typeNode := Some t;
     getJsDoc := doc;
     prop_filePath := "api.ts";
     prop_pos := 40 |}.

Definition documented (comments : list string) : option JSDoc :=
  Some {| getDescription := EmptyString;
          getTags := map exampleTag comments |}.

Definition declaration (properties : list (PropertySignature SpotType))
  : ParameterDeclaration SpotType :=
  {| decorators := ["pathParams"];
     param_questionToken := None;
     param_typeLiteral := Some properties;
     param_filePath := "api.ts" |}.

Definition parse (JSON_parse : string -> option Value)
    (parameter : ParameterDeclaration SpotType) :=
  parsePathParams parseType isPathParamTypeSafe JSON_parse parameter tt tt.

Definition extract (JSON_parse : string -> option Value)
    (p : PropertySignature SpotType) :=
  extractPathParam parseType isPathParamTypeSafe JSON_parse p tt tt.

(** [{ id: String }] with [@example ex] / [foo]: the value is not
    quoted. *)
Definition unquotedStringProperty : PropertySignature SpotType :=
  property "id" None stringType (documented [exampleComment "ex" "foo"]).

(** [{ ratio: Float }] with [@example half] / [1.5] *)
Definition floatProperty : PropertySignature SpotType :=
  property "ratio" None floatType (documented [exampleComment "half" "1.5"]).

(** [{ id: Int32 }] with [@example ex] / ["123"] (a JSON string) *)
Definition int32WithStringExample : PropertySignature SpotType :=
  property "id" None int32Type
    (documented [exampleComment "ex" (quoted "123")]).

(** [{ code: String }] with [@example ex] / ["123"] (a JSON string) *)
Definition stringWithDigitsExample : PropertySignature SpotType :=
  property "code" None stringType
    (documented [exampleComment "ex" (quoted "123")]).

(** [{ b: String, a: String, c: String }] *)
Definition bacProperties : list (PropertySignature SpotType) :=
  [ property "b" None stringType None;
    property "a" None stringType None;
    property "c" None stringType None ].

(** [{ "a b": String, c?: String }]: the first name is malformed, the
    second property is optional. *)
Definition malformedThenOptional : list (PropertySignature SpotType) :=
  [ property "a b" None stringType None;
    property "c" (Some 57%Z) stringType None ].

(** [{ a: String, c?: String }] *)
Definition validThenOptional : list (PropertySignature SpotType) :=
  [ property "a" None stringType None;
    property "c" (Some 57%Z) stringType None ].

(** Two [@example] tags named [dup]; the first has no value line. *)
Definition duplicateAfterMalformed : PropertySignature SpotType :=
  property "id" None int32Type
    (documented [ "dup"; exampleComment "dup" "1" ]).

(** Two well-formed [@example] tags named [dup]. *)
Definition duplicateExamples : PropertySignature SpotType :=
  property "id" None int32Type
    (documented [ exampleComment "dup" "1"; exampleComment "dup" "2" ]).

(** A STRING property with two [@example] tags; only the first value is
    quoted. *)
Definition quotedThenUnquoted : PropertySignature SpotType :=
  property "id" None stringType
    (documented [ exampleComment "first" (quoted "x");
                  exampleComment "second" "y" ]).

(** A property without documentation. *)
Definition undocumentedProperty : PropertySignature SpotType :=
  property "id" None int32Type None.

(** *** An endpoint

    IR types and type nodes are represented by their names. The naming
    scheme and the validation statement stand in for [validators.ts]; the
    theorems about the generator hold for any choice of them. *)

Definition isVoid (_ : ExpressServer.Api string) (t : string) : bool :=
  String.eqb t "void".

Definition endpointPropertyTypeName (endpointName property : string)
    (name : option string) : string :=
  endpointName ++ "_" ++ property
  ++ match name with Some n => "_" ++ n | None => EmptyString end.

Definition validatorName (typeName : string) : string :=
  "validate_" ++ typeName.

Definition validateStatement (value : ExpressServer.Expression string)
    (validator message : string) : ExpressServer.Statement string :=
  ExpressServer.ExpressionStatement
    (ExpressServer.Call
       (ExpressServer.PropertyAccess
          (ExpressServer.Identifier "validators") validator)
       [ value; ExpressServer.StringLiteral message ]).

(** [GET /users/:id], no headers, no request body, one custom error type
    for status 404. *)
Definition getUser : ExpressServer.Endpoint string :=
  {| ExpressServer.method := "GET";
     ExpressServer.path :=
       [ ExpressServer.static "/users/";
         ExpressServer.dynamic "id" "int32" ];
     ExpressServer.headers := [];
     ExpressServer.requestType := "void";
     ExpressServer.responseType := "object";
     ExpressServer.customErrorTypes := [ ("404", "NotFound") ];
     ExpressServer.defaultErrorType := "Error" |}.

Definition usersApi : ExpressServer.Api string :=
  {| ExpressServer.endpoints := [ ("getUser", getUser) ];
     ExpressServer.types := [] |}.

End Fixtures.

(* ===================================================================== *)
(** * Further vocabulary: examples, handler arguments *)
(* ===================================================================== *)

Module ExamplesSpec.
Import JS PathParamsParser PathParamsSpec.

(** An example that the loop passes over: both lines are there and the
    value is an unquoted value of a STRING property. *)
Definition skippedComment (type : SpotType) (comment : string) : bool :=
  match exampleNameOf comment, exampleValueOf comment with
  | Some _, Some v => TypeKind_eqb (kind type) STRING && unquoted v
  | _, _ => false
  end.

(** The example a comment stands for: its trimmed name line and the
    parsed value of its trimmed value line. *)
Definition exampleOfComment (JSON_parse : string -> option Value)
    (comment : string) : option Example :=
  match exampleNameOf comment, exampleValueOf comment with
  | Some n, Some v =>
      match JSON_parse v with
      | Some parsedValue =>
          Some {| example_name := n; example_value := parsedValue |}
      | None => None
      end
  | _, _ => None
  end.

(** The examples of a list of comments, in the order of the comments,
    without the ones passed over. *)
Fixpoint examplesOfComments (JSON_parse : string -> option Value)
    (type : SpotType) (comments : list string) : list Example :=
  match comments with
  | [] => []
  | c :: rest =>
      if skippedComment type c then examplesOfComments JSON_parse type rest
      else match exampleOfComment JSON_parse c with
           | Some ex => ex :: examplesOfComments JSON_parse type rest
           | None => examplesOfComments JSON_parse type rest
           end
  end.

(** A name the parser accepts: not empty, made of letters, digits,
    underscores and hyphens. *)
Definition validName (n : string) : Prop :=
  n <> EmptyString /\
  forall c, In c (list_ascii_of_string n) -> isWordOrHyphen c = true.

End ExamplesSpec.

Module HandlerSpec.
Import JS ExpressServer ExpressServerSpec.

Section Spec.

Variable IRType : Type.
Variable TSTypeNode : Type.

(** One argument of the endpoint function: the local it is bound to, the
    part of the request it is read from, the name of the type it is
    validated as, and the message of a failed validation. *)
Record ArgumentSource :=
  { argumentName : string;
    argumentValue : Expression TSTypeNode;
    validatedAs : string;
    failureMessage : string }.

(** The arguments in the order of the call: the request body unless the
    request type is void, the dynamic path components in path order, the
    headers in declaration order. *)
Definition argumentSources (isVoid : Api IRType -> IRType -> bool)
    (endpointPropertyTypeName : string -> string -> option string -> string)
    (api : Api IRType) (endpointName : string) (endpoint : Endpoint IRType)
  : list ArgumentSource :=
  ((if isVoid api (requestType endpoint) then []
    else [ {| argumentName := "request";
              argumentValue := PropertyAccess (Identifier "req") "body";
              validatedAs :=
                endpointPropertyTypeName endpointName "request" None;
              failureMessage := "Invalid request" |} ])
   ++ map (fun '(name, _) =>
             {| argumentName := name;
                argumentValue :=
                  PropertyAccess (PropertyAccess (Identifier "req") "params")
                    name;
                validatedAs :=
                  endpointPropertyTypeName endpointName "param" (Some name);
                failureMessage := "Invalid path parameter " ++ name |})
        (dynamicComponents (path endpoint))
   ++ map (fun '(headerName, header) =>
             {| argumentName := headerName;
                argumentValue :=
                  ElementAccess
                    (PropertyAccess (Identifier "req") "headers")
                    (StringLiteral (headerFieldName header));
                validatedAs :=
                  endpointPropertyTypeName endpointName "header"
                    (Some headerName);
                failureMessage :=
                  "Invalid header " ++ headerFieldName header |})
        (headers endpoint))%list.

(** [const name = value;] followed by the validation of [name]. *)
Definition bindAndValidate (validatorName : string -> string)
    (validateStatement :
       Expression TSTypeNode -> string -> string -> Statement TSTypeNode)
    (a : ArgumentSource) : list (Statement TSTypeNode) :=
  [ VariableStatement [ (argumentName a, argumentValue a) ] Const;
    validateStatement (Identifier (argumentName a))
      (validatorName (validatedAs a)) (failureMessage a) ].

End Spec.

Arguments argumentName {TSTypeNode} a.
Arguments argumentValue {TSTypeNode} a.
Arguments validatedAs {TSTypeNode} a.
Arguments failureMessage {TSTypeNode} a.
Arguments argumentSources {IRType} TSTypeNode isVoid endpointPropertyTypeName
  api endpointName endpoint.
Arguments bindAndValidate {TSTypeNode} validatorName validateStatement a.

End HandlerSpec.

Module MoreFixtures.
Import JS PathParamsParser Fixtures.

(** [{ "": String }] *)
Definition emptyNameProperty : PropertySignature SpotType :=
  property EmptyString None stringType None.

(** [{ "a b": String }] *)
Definition malformedNameProperty : PropertySignature SpotType :=
  property "a b" None stringType None.

(** [{ filter: { ... } }]: an object is not URL-safe. *)
Definition objectProperty : PropertySignature SpotType :=
  property "filter" None objectType None.

(** An [@example] tag without text, after a well-formed one. *)
Definition emptyExampleTag : PropertySignature SpotType :=
  property "id" None int32Type
    (Some {| getDescription := EmptyString;
             getTags := [ exampleTag (exampleComment "one" "1");
                          {| getTagName := "example";
                             getComment := None |} ] |}).


(** Two well-formed integer examples, and a tag that is not an example. *)
Definition twoIntExamples : PropertySignature SpotType :=
  property "id" None int32Type
    (Some {| getDescription := "  The identifier. ";
             getTags := [ exampleTag (exampleComment " one " " 1 ");
                          {| getTagName := "default";
                             getComment := Some "0" |};
                          exampleTag (exampleComment "two" "2") ] |}).


(** A property without a type annotation. *)
Definition untypedProperty : PropertySignature SpotType :=
  {| getPropertyName := "rest";
     prop_questionToken := None;
     prop_typeNode := None;
     getJsDoc := None;
     prop_filePath := "api.ts";
     prop_pos := 80 |}.

(** [{ a: String, filter: { ... }, rest }] *)
Definition validUnsafeUntyped : list (PropertySignature SpotType) :=
  [ property "a" None stringType None;
    property "filter" None objectType None;
    untypedProperty ].

(** What [twoIntExamples] is parsed to. *)
Definition one : Example :=
  {| example_name := "one";
     example_value := VNumber (mkNumber false 1 0) |}.

Definition two : Example :=
  {| example_name := "two";
     example_value := VNumber (mkNumber false 2 0) |}.

Definition idParam : PathParam :=
  {| name := "id";
     type := int32Type;
     description := Some "The identifier.";
     examples := Some [one; two] |}.

(** A STRING path parameter without documentation. *)
Definition plainParam (n : string) : PathParam :=
  {| name := n; type := stringType; description := None; examples := None |}.

(** A BOOLEAN property with one example. *)
Definition booleanExample : PropertySignature SpotType :=
  property "active" None booleanType
    (documented [ exampleComment "yes" "true" ]).

(** [POST /users/:id/items/:item] with two headers and a request body that
    refers to the named type [Item]. *)
Definition addItem : ExpressServer.Endpoint string :=
  {| ExpressServer.method := "POST";
     ExpressServer.path :=
       [ ExpressServer.static "/users/";
         ExpressServer.dynamic "id" "int32";
         ExpressServer.static "/items/";
         ExpressServer.dynamic "item" "string" ];
     ExpressServer.headers :=
       [ ("auth", {| ExpressServer.headerFieldName := "Authorization";
                     ExpressServer.header_type := "string" |});
         ("trace", {| ExpressServer.headerFieldName := "X-Trace";
                      ExpressServer.header_type := "string" |}) ];
     ExpressServer.requestType := "Item";
     ExpressServer.responseType := "Item";
     ExpressServer.customErrorTypes := [ ("404", "NotFound") ];
     ExpressServer.defaultErrorType := "Error" |}.

Definition itemsApi : ExpressServer.Api string :=
  {| ExpressServer.endpoints :=
       [ ("getUser", getUser); ("addItem", addItem) ];
     ExpressServer.types := [] |}.

(** Stand-ins for [models] and [types.ts] of the generator: the types an
    endpoint mentions, and which of the names are type references. *)
Definition gatherTypes (endpoint : ExpressServer.Endpoint string)
  : list string :=
  (ExpressServer.requestType endpoint
   :: ExpressServer.responseType endpoint
   :: ExpressServer.defaultErrorType endpoint
   :: map snd (ExpressServer.customErrorTypes endpoint))%list.

Definition typeReferenceName (t : string) : option string :=
  match t with
  | String c _ => if isUpper c then Some t else None
  | EmptyString => None
  end.

End MoreFixtures.

(* ===================================================================== *)
(** * Facts about the built-ins *)
(* ===================================================================== *)

Unset Implicit Arguments.

Module JSFacts.
Import JS.

(** ** The models on a few inputs *)

Example trim_example :
  trim (String (ascii_of_N 9) "  ex " ++ String (ascii_of_N 13) EmptyString)
  = "ex".
Proof. reflexivity. Qed.

Example split_example :
  split LF ("ex" ++ String LF "1" ++ String LF EmptyString)
  = ["ex"; "1"; EmptyString].
Proof. reflexivity. Qed.

Example Number_toString_examples :
  map Number_toString
    [ mkNumber false 15 (-1); mkNumber true 0 0; mkNumber false 100 0;
      mkNumber false 1 2; mkNumber false 1 21; mkNumber true 125 (-10);
      mkNumber false 20 (-1) ]
  = [ "1.5"; "0"; "100"; "100"; "1e+21"; "-1.25e-8"; "2" ].
Proof. reflexivity. Qed.

Example JSON_parse_scalar_examples :
  map JSON_parse_scalar [ "1.5"; "-7"; "true"; "null"; "foo"; "01"; "1e2" ]
  = [ Some (VNumber (mkNumber false 15 (-1)));
      Some (VNumber (mkNumber true 7 0));
      Some (VBoolean true);
      Some VNull;
      None;
      None;
      Some (VNumber (mkNumber false 1 2)) ].
Proof. reflexivity. Qed.

Example test_integer_pattern_examples :
  map test_integer_pattern [ "42"; "-42"; "1.5"; "-"; "4 2"; "true" ]
  = [ true; true; false; false; false; false ].
Proof. reflexivity. Qed.

Example sort_example :
  sort (fun a b : Z => if (a <? b)%Z then (-1)%Z else 1%Z) [3; 1; 2]%Z
  = [1; 2; 3]%Z.
Proof. reflexivity. Qed.

Lemma compare_refl (a : string) : String.compare a a = Eq.
Proof.
  induction a as [|c a IH]; simpl; [reflexivity|].
  unfold Ascii.compare. now rewrite N.compare_refl.
Qed.

Lemma compare_lt_trans (a b c : string) :
  String.compare a b = Lt -> String.compare b c = Lt ->
  String.compare a c = Lt.
Proof.
  revert b c.
  induction a as [|x a IH]; intros [|y b] [|z c]; simpl; try easy.
  unfold Ascii.compare.
  destruct (N.compare_spec (N_of_ascii x) (N_of_ascii y)) as [Exy|Lxy|Gxy];
    try easy;
    destruct (N.compare_spec (N_of_ascii y) (N_of_ascii z)) as [Eyz|Lyz|Gyz];
    try easy; intros Hab Hbc.
  - rewrite Exy, Eyz, N.compare_refl. now apply IH with b.
  - rewrite Exy. now apply N.compare_lt_iff in Lyz; rewrite Lyz.
  - rewrite <- Eyz. now apply N.compare_lt_iff in Lxy; rewrite Lxy.
  - assert (H : (N_of_ascii x < N_of_ascii z)%N) by lia.
    now apply N.compare_lt_iff in H; rewrite H.
Qed.

(** [y > x] is [x < y]. *)
Lemma gt_ltb (x y : string) : gt y x = String.ltb x y.
Proof.
  unfold gt, String.ltb. rewrite (String.compare_antisym x y).
  now destruct (String.compare y x).
Qed.

Lemma ltb_trans (a b c : string) :
  String.ltb a b = true -> String.ltb b c = true -> String.ltb a c = true.
Proof.
  unfold String.ltb. intros Hab Hbc.
  destruct (String.compare a b) eqn:E1; try discriminate.
  destruct (String.compare b c) eqn:E2; try discriminate.
  now rewrite (compare_lt_trans _ _ _ E1 E2).
Qed.

Lemma ltb_irrefl (a : string) : String.ltb a a = false.
Proof. unfold String.ltb. now rewrite compare_refl. Qed.

(** Two different strings are ordered one way or the other. *)
Lemma ltb_total (a b : string) :
  a <> b -> String.ltb a b = false -> String.ltb b a = true.
Proof.
  unfold String.ltb. intros Hne.
  rewrite (String.compare_antisym b a).
  destruct (String.compare a b) eqn:E; simpl; try easy.
  now apply String.compare_eq_iff in E.
Qed.

Section Sort.
Context {A : Type} (comparefn : A -> A -> Z).

Lemma sort_insert_perm (x : A) (l : list A) :
  Permutation (sort_insert comparefn x l) (x :: l).
Proof.
  induction l as [|y l IH]; simpl; [apply Permutation_refl|].
  destruct (comparefn x y <? 0)%Z; [apply Permutation_refl|].
  eapply perm_trans; [apply perm_skip, IH | apply perm_swap].
Qed.

Lemma sort_fold_perm (l acc : list A) :
  Permutation
    (fold_left (fun sorted x => sort_insert comparefn x sorted) l acc)
    (acc ++ l)%list.
Proof.
  revert acc. induction l as [|x l IH]; intros acc; simpl.
  - rewrite app_nil_r. apply Permutation_refl.
  - eapply perm_trans; [apply IH|].
    eapply perm_trans;
      [apply Permutation_app_tail, sort_insert_perm|].
    simpl. apply Permutation_middle.
Qed.

(** [sort] only rearranges. *)
Lemma sort_perm (l : list A) : Permutation (sort comparefn l) l.
Proof. apply (sort_fold_perm l []). Qed.

(** When [comparefn] answers a negative number exactly on the pairs of
    a transitive relation [lt] that orders every two elements of the
    array one way or the other, [sort] yields an [lt]-sorted array. *)
Variable lt : A -> A -> Prop.
Hypothesis lt_trans : forall a b c, lt a b -> lt b c -> lt a c.
Hypothesis comparefn_lt :
  forall a b, (comparefn a b <? 0)%Z = true <-> lt a b.

Lemma sort_insert_sorted (x : A) (l : list A) :
  (forall y, In y l -> lt x y \/ lt y x) ->
  StronglySorted lt l -> StronglySorted lt (sort_insert comparefn x l).
Proof.
  induction l as [|y l IH]; intros Htot Hs; simpl.
  - constructor; constructor.
  - inversion Hs as [|? ? Hs' Hall]; subst.
    destruct (comparefn x y <? 0)%Z eqn:E.
    + apply comparefn_lt in E. constructor; [assumption|].
      constructor; [assumption|].
      rewrite Forall_forall in *. intros z Hz.
      apply lt_trans with y; auto.
    + assert (Hyx : lt y x).
      { destruct (Htot y (or_introl eq_refl)) as [H|H]; [|assumption].
        apply comparefn_lt in H. congruence. }
      constructor.
      * apply IH; [|assumption]. intros z Hz. apply Htot. now right.
      * rewrite Forall_forall in *. intros z Hz.
        apply (Permutation_in _ (sort_insert_perm x l)) in Hz.
        destruct Hz as [<-|Hz]; auto.
Qed.

Lemma sort_fold_sorted (l acc : list A) :
  (forall x y, In x (acc ++ l)%list -> In y (acc ++ l)%list ->
               x = y \/ lt x y \/ lt y x) ->
  NoDup (acc ++ l)%list ->
  StronglySorted lt acc ->
  StronglySorted lt
    (fold_left (fun sorted x => sort_insert comparefn x sorted) l acc).
Proof.
  revert acc. induction l as [|x l IH]; intros acc Htot Hnd Hs; simpl.
  - assumption.
  - assert (Hp : Permutation (sort_insert comparefn x acc ++ l)%list
                   (acc ++ x :: l)%list).
    { eapply perm_trans;
        [apply Permutation_app_tail, sort_insert_perm|].
      simpl. apply Permutation_middle. }
    apply IH.
    + intros a b Ha Hb. apply Htot; eapply Permutation_in; eauto.
    + eapply Permutation_NoDup; [apply Permutation_sym, Hp|assumption].
    + apply sort_insert_sorted; [|assumption].
      intros y Hy.
      destruct (Htot x y) as [->|H]; try assumption.
      * apply in_or_app. right. now left.
      * apply in_or_app. now left.
      * exfalso. apply NoDup_remove_2 in Hnd. apply Hnd.
        apply in_or_app. now left.
Qed.

Lemma sort_sorted (l : list A) :
  (forall x y, In x l -> In y l -> x = y \/ lt x y \/ lt y x) ->
  NoDup l -> StronglySorted lt (sort comparefn l).
Proof.
  intros Htot Hnd. apply sort_fold_sorted; simpl; auto. constructor.
Qed.

End Sort.

End JSFacts.

(* ===================================================================== *)
(** * Properties of the path-parameter parser *)
(* ===================================================================== *)

Module PathParamsParserFacts.
Import JS PathParamsParser PathParamsSpec JSFacts.

Lemma byName_negative (a b : PathParam) :
  (byName a b <? 0)%Z = true <-> nameLt a b.
Proof.
  unfold byName, nameLt. rewrite gt_ltb.
  destruct (String.ltb (name a) (name b)); simpl; split; easy.
Qed.

Lemma nameLt_trans (a b c : PathParam) :
  nameLt a b -> nameLt b c -> nameLt a c.
Proof. unfold nameLt. apply ltb_trans. Qed.

Lemma nameLt_total (a b : PathParam) :
  name a <> name b -> nameLt a b \/ nameLt b a.
Proof.
  unfold nameLt. intros Hne.
  destruct (String.ltb (name a) (name b)) eqn:E; [now left|right].
  now apply ltb_total.
Qed.

(** Sorting path parameters of pairwise different names by [byName]
    puts them in ascending order of name. *)
Lemma sort_byName_sorted (l : list PathParam) :
  NoDup (map name l) -> StronglySorted nameLt (sort byName l).
Proof.
  intros Hnd.
  apply sort_sorted.
  - apply nameLt_trans.
  - apply byName_negative.
  - intros x y Hx Hy.
    destruct (string_dec (name x) (name y)) as [E|E].
    + left. revert x y Hx Hy E.
      induction l as [|z l IH]; simpl; [easy|].
      inversion Hnd as [|? ? Hz Hnd']; subst.
      intros x y [<-|Hx] [<-|Hy] E; auto.
      * exfalso. apply Hz. rewrite E. now apply in_map.
      * exfalso. apply Hz. rewrite <- E. now apply in_map.
    + right. now apply nameLt_total.
  - now apply NoDup_map_inv in Hnd.
Qed.

Section Facts.

Variable TypeNode TypeTable LociTable : Type.
Variable parseType :
  TypeNode -> TypeTable -> LociTable -> Result SpotType ParserError.
Variable isPathParamTypeSafe : SpotType -> TypeTable -> bool.
Variable JSON_parse : string -> option Value.

Local Abbreviation extractPathParam :=
  (extractPathParam parseType isPathParamTypeSafe JSON_parse).
Local Abbreviation extractAll :=
  (extractAll parseType isPathParamTypeSafe JSON_parse).
Local Abbreviation parsePathParams :=
  (parsePathParams parseType isPathParamTypeSafe JSON_parse).
Local Abbreviation extractPathParamExamples :=
  (extractPathParamExamples JSON_parse).

(** ** Names *)

Lemma extractPathParamName_ok (p : PropertySignature TypeNode)
    (n : string) :
  extractPathParamName p = ok n -> n = getPropertyName p.
Proof.
  unfold extractPathParamName.
  destruct (negb (test_name_pattern (getPropertyName p))); [easy|].
  destruct (String.length (getPropertyName p) =? 0)%nat; [easy|].
  now intros [= <-].
Qed.

(** A property that is extracted keeps its declared name. *)
Lemma extractPathParam_name (p : PropertySignature TypeNode)
    (typeTable : TypeTable) (lociTable : LociTable) (pp : PathParam) :
  extractPathParam p typeTable lociTable = Normal (ok pp) ->
  name pp = getPropertyName p.
Proof.
  unfold PathParamsParser.extractPathParam.
  destruct (hasQuestionToken (prop_questionToken p)).
  { destruct (prop_questionToken p); simpl; easy. }
  destruct (extractPathParamName p) as [n|e] eqn:En; [|easy].
  apply extractPathParamName_ok in En. subst n.
  destruct (extractPathParamType parseType isPathParamTypeSafe p
              typeTable lociTable) as [[t|e]|w]; simpl; try easy.
  destruct (extractPathParamExamples p t) as [[ex|e]|];
    try easy; now intros [= <-].
Qed.

(** ** Optional properties *)

Lemma extractPathParam_optional (p : PropertySignature TypeNode)
    (typeTable : TypeTable) (lociTable : LociTable) (pos : Z) :
  prop_questionToken p = Some pos ->
  extractPathParam p typeTable lociTable =
  Normal (err (newOptionalNotAllowedError
                 "@pathParams property cannot be optional"
                 {| file := prop_filePath p; position := pos |})).
Proof.
  intros H. unfold PathParamsParser.extractPathParam.
  now rewrite H.
Qed.

(** ** The loop over the properties *)

Lemma extractAll_ok (properties : list (PropertySignature TypeNode))
    (typeTable : TypeTable) (lociTable : LociTable)
    (params acc : list PathParam) :
  Forall2 (fun p pp => extractPathParam p typeTable lociTable
                       = Normal (ok pp)) properties params ->
  extractAll properties typeTable lociTable acc
  = Normal (ok (acc ++ params)%list).
Proof.
  intros H. revert acc.
  induction H as [|p pp properties params Hp _ IH]; intros acc; simpl.
  - now rewrite app_nil_r.
  - rewrite Hp. simpl. rewrite IH. now rewrite <- app_assoc.
Qed.

(** The loop stops at the first property that is not extracted. *)
Lemma extractAll_first_failure
    (before after : list (PropertySignature TypeNode))
    (p : PropertySignature TypeNode)
    (typeTable : TypeTable) (lociTable : LociTable)
    (acc : list PathParam) (e : ParserError) :
  Forall (fun q => exists pp, extractPathParam q typeTable lociTable
                              = Normal (ok pp)) before ->
  extractPathParam p typeTable lociTable = Normal (err e) ->
  extractAll (before ++ p :: after)%list typeTable lociTable acc
  = Normal (err e).
Proof.
  intros H Hp. revert acc.
  induction H as [|q before [pp Hq] _ IH]; intros acc; simpl.
  - now rewrite Hp.
  - rewrite Hq. simpl. apply IH.
Qed.

(** When the loop runs to its end, every property was extracted. *)
Lemma extractAll_ok_inv (properties : list (PropertySignature TypeNode))
    (typeTable : TypeTable) (lociTable : LociTable)
    (acc result : list PathParam) :
  extractAll properties typeTable lociTable acc = Normal (ok result) ->
  Forall (fun q => exists pp, extractPathParam q typeTable lociTable
                              = Normal (ok pp)) properties.
Proof.
  revert acc.
  induction properties as [|p properties IH]; intros acc; simpl.
  - constructor.
  - destruct (extractPathParam p typeTable lociTable)
      as [[pp|e]|w] eqn:Hp; simpl; try easy.
    intros H. constructor; eauto.
Qed.

Lemma extracted_list (properties : list (PropertySignature TypeNode))
    (typeTable : TypeTable) (lociTable : LociTable) :
  Forall (fun q => exists pp, extractPathParam q typeTable lociTable
                              = Normal (ok pp)) properties ->
  exists params,
    Forall2 (fun p pp => extractPathParam p typeTable lociTable
                         = Normal (ok pp)) properties params.
Proof.
  induction 1 as [|q properties [pp Hq] _ [params IH]].
  - exists []. constructor.
  - exists (pp :: params). now constructor.
Qed.

Lemma extracted_names (properties : list (PropertySignature TypeNode))
    (typeTable : TypeTable) (lociTable : LociTable)
    (params : list PathParam) :
  Forall2 (fun p pp => extractPathParam p typeTable lociTable
                       = Normal (ok pp)) properties params ->
  map name params = map getPropertyName properties.
Proof.
  induction 1 as [|p pp properties params Hp _ IH]; simpl; [reflexivity|].
  now rewrite IH, (extractPathParam_name _ _ _ _ Hp).
Qed.

Lemma getDecoratorOrThrow_present (parameter : ParameterDeclaration TypeNode)
    (decorator : string) :
  In decorator (decorators parameter) ->
  getDecoratorOrThrow parameter decorator = Normal tt.
Proof.
  intros H. unfold getDecoratorOrThrow.
  replace (existsb (String.eqb decorator) (decorators parameter)) with true;
    [reflexivity|].
  symmetry. apply existsb_exists. exists decorator.
  split; [assumption | apply String.eqb_refl].
Qed.

(** ** The result of [parsePathParams] *)

(** C3. For every annotated, non-optional declaration whose properties
    all validate successfully and have pairwise different names,
    [parsePathParams] succeeds, its result holds exactly the path
    parameters of the declared properties, one for each, and the result
    is in ascending lexicographic order of name. *)
Theorem parsePathParams_sorted_by_name
    (parameter : ParameterDeclaration TypeNode)
    (typeTable : TypeTable) (lociTable : LociTable)
    (properties : list (PropertySignature TypeNode)) :
  In "pathParams" (decorators parameter) ->
  param_questionToken parameter = None ->
  param_typeLiteral parameter = Some properties ->
  Forall (fun q => exists pp, extractPathParam q typeTable lociTable
                              = Normal (ok pp)) properties ->
  NoDup (map getPropertyName properties) ->
  exists params sorted,
    Forall2 (fun p pp => extractPathParam p typeTable lociTable
                         = Normal (ok pp)) properties params /\
    parsePathParams parameter typeTable lociTable = Normal (ok sorted) /\
    Permutation sorted params /\
    length sorted = length properties /\
    StronglySorted nameLt sorted.
Proof.
  intros Hdec Hq Hlit Hall Hnd.
  destruct (extracted_list _ _ _ Hall) as [params Hparams].
  exists params, (sort byName params).
  assert (Hnames := extracted_names _ _ _ _ Hparams).
  repeat split.
  - assumption.
  - unfold PathParamsParser.parsePathParams.
    rewrite (getDecoratorOrThrow_present _ _ Hdec). simpl.
    rewrite Hq. simpl.
    unfold getParameterTypeAsTypeLiteralOrThrow. rewrite Hlit. simpl.
    now rewrite (extractAll_ok _ _ _ _ [] Hparams).
  - apply sort_perm.
  - rewrite (Permutation_length (sort_perm byName params)).
    now rewrite <- (length_map name), Hnames, length_map.
  - apply sort_byName_sorted. now rewrite Hnames.
Qed.

(** C4 (as amended). For every annotated declaration: when the parameter
    itself is optional, [parsePathParams] returns the failure
    [OptionalNotAllowedError] located at the parameter's question token;
    when a property is optional and every property declared before it
    validates successfully, it returns the failure
    [OptionalNotAllowedError] located at that property's question token;
    and whenever the parameter or one of its properties is optional, no
    [PathParam] sequence is returned. *)
Theorem parsePathParams_optional_not_allowed
    (parameter : ParameterDeclaration TypeNode)
    (typeTable : TypeTable) (lociTable : LociTable) :
  In "pathParams" (decorators parameter) ->
  (forall pos,
      param_questionToken parameter = Some pos ->
      parsePathParams parameter typeTable lociTable
      = Normal (err (newOptionalNotAllowedError
                       "@pathParams parameter cannot be optional"
                       {| file := param_filePath parameter;
                          position := pos |})))
  /\
  (forall before p after pos,
      param_questionToken parameter = None ->
      param_typeLiteral parameter = Some (before ++ p :: after)%list ->
      Forall (fun q => exists pp, extractPathParam q typeTable lociTable
                                  = Normal (ok pp)) before ->
      prop_questionToken p = Some pos ->
      parsePathParams parameter typeTable lociTable
      = Normal (err (newOptionalNotAllowedError
                       "@pathParams property cannot be optional"
                       {| file := prop_filePath p; position := pos |})))
  /\
  (forall properties p result,
      (param_questionToken parameter <> None \/
       param_typeLiteral parameter = Some properties /\
       In p properties /\ prop_questionToken p <> None) ->
      parsePathParams parameter typeTable lociTable <> Normal (ok result)).
Proof.
  intros Hdec.
  unfold PathParamsParser.parsePathParams.
  rewrite (getDecoratorOrThrow_present _ _ Hdec). simpl.
  repeat split.
  - intros pos Hq. now rewrite Hq.
  - intros before p after pos Hq Hlit Hbefore Hp.
    rewrite Hq. simpl.
    unfold getParameterTypeAsTypeLiteralOrThrow. rewrite Hlit. simpl.
    rewrite (extractAll_first_failure before after p _ _ [] _ Hbefore
               (extractPathParam_optional _ _ _ _ Hp)).
    reflexivity.
  - intros properties p result [Hq | (Hlit & Hin & Hp)].
    + destruct (param_questionToken parameter); [simpl; easy | easy].
    + destruct (param_questionToken parameter); [simpl; easy|]. simpl.
      unfold getParameterTypeAsTypeLiteralOrThrow. rewrite Hlit. simpl.
      destruct (extractAll properties typeTable lociTable [])
        as [[l|e]|w] eqn:E; simpl; try easy.
      apply extractAll_ok_inv in E.
      rewrite Forall_forall in E. destruct (E p Hin) as [pp Hpp].
      destruct (prop_questionToken p) as [pos|] eqn:Hpos; [|easy].
      rewrite (extractPathParam_optional _ _ _ _ Hpos) in Hpp. easy.
Qed.

(** ** The loop over the [@example] tags *)

Lemma existsb_example_name (n : string) (l : list Example) :
  existsb (fun ex => String.eqb (example_name ex) n) l = true
  <-> In n (map example_name l).
Proof.
  rewrite existsb_exists, in_map_iff. split.
  - intros (ex & Hin & E). apply String.eqb_eq in E. eauto.
  - intros (ex & E & Hin). exists ex. split; [assumption|].
    now apply String.eqb_eq.
Qed.

(** Once a name comes back among well-formed examples, the loop ends with
    the duplicate error, provided the examples before that point were
    all taken. *)
Lemma every_duplicate (p : PropertySignature TypeNode) (type : SpotType)
    (e n : string) (after : list string) :
  wellFormed e = true -> exampleNameOf e = Some n ->
  forall (before : list string) (st : LoopState),
    Forall (fun c => acceptable JSON_parse type c = true) before ->
    In n (map example_name (st_examples st))
    \/ In (Some n) (map exampleNameOf before) ->
    st_exampleError
      (every ToBoolean (exampleCallback JSON_parse p type) st
         (map Some (before ++ e :: after)%list))
    = Some (duplicateError (here p)).
Proof.
  intros Hwf Hn.
  induction before as [|c before IH]; intros st Hacc Hin; simpl.
  - destruct Hin as [Hin|[]].
    unfold exampleCallback. unfold wellFormed in Hwf.
    fold (exampleNameOf e). fold (exampleValueOf e). rewrite Hn in *.
    destruct (exampleValueOf e); [|discriminate].
    apply existsb_example_name in Hin. now rewrite Hin.
  - inversion Hacc as [|? ? Hc Hacc']; subst.
    unfold exampleCallback at 1. unfold acceptable in Hc.
    fold (exampleNameOf c). fold (exampleValueOf c).
    destruct (exampleNameOf c) as [nc|] eqn:Enc; [|discriminate].
    destruct (exampleValueOf c) as [vc|]; [|discriminate].
    apply andb_prop in Hc. destruct Hc as [Hquoted Hjson].
    apply negb_true_iff in Hquoted.
    destruct (existsb (fun ex => String.eqb (example_name ex) nc)
                (st_examples st)) eqn:Edup; [reflexivity|].
    rewrite Hquoted.
    destruct (JSON_parse vc) as [pv|]; [|discriminate]. simpl.
    apply IH; [assumption|]. simpl.
    rewrite map_app, in_app_iff. simpl.
    destruct Hin as [Hin|[Hin|Hin]]; auto.
    left. right. left. congruence.
Qed.

(** When no example is an unquoted value of a STRING property, a loop
    that ends without an error has taken every example. *)
Lemma every_takes_all (p : PropertySignature TypeNode) (type : SpotType)
    (raws : list (option string)) :
  forall st : LoopState,
    Forall (fun raw => forall v, truthy_string (lineOf raw 1) = Some v ->
                       TypeKind_eqb (kind type) STRING && unquoted v = false)
      raws ->
    st_exampleError st = None ->
    st_exampleError
      (every ToBoolean (exampleCallback JSON_parse p type) st raws) = None ->
    length (st_examples
              (every ToBoolean (exampleCallback JSON_parse p type) st raws))
    = (length (st_examples st) + length raws)%nat.
Proof.
  induction raws as [|raw raws IH]; intros st Hq Hst; simpl.
  - intros _. lia.
  - inversion Hq as [|? ? Hraw Hq']; subst.
    unfold exampleCallback at 1 3.
    destruct (truthy_string (lineOf raw 0)) as [n|]; [|simpl; discriminate].
    destruct (truthy_string (lineOf raw 1)) as [v|]; [|simpl; discriminate].
    destruct (existsb _ (st_examples st)); [simpl; discriminate|].
    rewrite (Hraw v eq_refl).
    destruct (JSON_parse v) as [pv|]; [|simpl; discriminate]. simpl.
    intros Hend. rewrite IH; auto.
    simpl. rewrite length_app. simpl. lia.
Qed.

(** A property without [@example] tags has no examples result. *)
Lemma extractPathParamExamples_without_tags
    (p : PropertySignature TypeNode) (type : SpotType) :
  rawExamplesOf p = None \/ rawExamplesOf p = Some [] ->
  extractPathParamExamples p type = None.
Proof.
  unfold PathParamsParser.extractPathParamExamples.
  now intros [-> | ->].
Qed.

(** With at least one tag, the result is never absent. *)
Lemma extractPathParamExamples_with_tags
    (p : PropertySignature TypeNode) (type : SpotType)
    (raw : option string) (raws : list (option string)) :
  rawExamplesOf p = Some (raw :: raws) ->
  extractPathParamExamples p type <> None.
Proof.
  unfold PathParamsParser.extractPathParamExamples. intros ->.
  destruct (existsb isUndefined (raw :: raws)); [easy|].
  cbn [length Nat.ltb Nat.leb].
  destruct (st_exampleError _); [easy|].
  destruct (existsb _ _); easy.
Qed.

(** Apart from unquoted values of a STRING property, a successful result
    holds one example for each tag. *)
Lemma extractPathParamExamples_one_per_tag
    (p : PropertySignature TypeNode) (type : SpotType)
    (raws : list (option string)) (result : list Example) :
  rawExamplesOf p = Some raws ->
  Forall (fun raw => forall v, truthy_string (lineOf raw 1) = Some v ->
                     TypeKind_eqb (kind type) STRING && unquoted v = false)
    raws ->
  extractPathParamExamples p type = Some (ok result) ->
  length result = length raws.
Proof.
  unfold PathParamsParser.extractPathParamExamples. intros -> Hq.
  destruct (existsb isUndefined raws); [easy|].
  destruct (0 <? length raws)%nat; [|easy].
  destruct (st_exampleError _) eqn:Eerr.
  - intros [= ->].
    exfalso. revert Eerr. generalize (@nil Example).
    assert (G : forall st,
               (forall l, st_exampleError st <> Some (ok l)) ->
               forall l,
               st_exampleError
                 (every ToBoolean (exampleCallback JSON_parse p type) st raws)
               <> Some (ok l)).
    { clear. induction raws as [|raw raws IH]; intros st Hst l0; simpl.
      - apply Hst.
      - unfold exampleCallback at 1.
        destruct (truthy_string (lineOf raw 0)); [|simpl; easy].
        destruct (truthy_string (lineOf raw 1)); [|simpl; easy].
        destruct (existsb _ (st_examples st)); [simpl; easy|].
        destruct (TypeKind_eqb (kind type) STRING && unquoted s0);
          [simpl; now apply IH|].
        destruct (JSON_parse s0); [|simpl; easy]. simpl.
        now apply IH. }
    intros l0 H. eapply G; [|exact H]. simpl. easy.
  - destruct (existsb _ _); [easy|].
    intros [= <-].
    rewrite every_takes_all; auto.
Qed.

(** C5 (as amended). For every property that is not optional, has a
    valid name and a URL-safe type, and whose [@example] tags all have a
    comment: if a tag with non-blank name and value lines repeats the
    trimmed name of an earlier tag, and every tag before it has non-blank
    name and value lines and a value that parses as JSON and, for a
    STRING property, is enclosed in double quotes, then parsing the
    property fails with the ParserError "duplicate example name". *)
Theorem duplicate_example_name_rejected
    (p : PropertySignature TypeNode)
    (typeTable : TypeTable) (lociTable : LociTable) (type : SpotType)
    (before after : list string) (e n : string) :
  prop_questionToken p = None ->
  (exists validName, extractPathParamName p = ok validName) ->
  extractPathParamType parseType isPathParamTypeSafe p typeTable lociTable
  = Normal (ok type) ->
  rawExamplesOf p = Some (map Some (before ++ e :: after)%list) ->
  Forall (fun c => acceptable JSON_parse type c = true) before ->
  wellFormed e = true ->
  exampleNameOf e = Some n ->
  In (Some n) (map exampleNameOf before) ->
  extractPathParam p typeTable lociTable
  = Normal (err (newParserError "@pathParams duplicate example name"
                   (here p))).
Proof.
  intros Hq [validName Hname] Htype Hraw Hbefore Hwf Hn Hin.
  unfold PathParamsParser.extractPathParam.
  rewrite Hq, Hname, Htype. simpl.
  unfold PathParamsParser.extractPathParamExamples. rewrite Hraw.
  replace (existsb isUndefined (map Some (before ++ e :: after)%list))
    with false.
  2:{ symmetry. generalize (before ++ e :: after)%list.
      induction l; simpl; auto. }
  replace (0 <? length (map Some (before ++ e :: after)%list))%nat with true.
  2:{ symmetry. rewrite length_map, length_app. simpl.
      apply Nat.ltb_lt. lia. }
  rewrite (every_duplicate p type e n after Hwf Hn before _ Hbefore
             (or_intror Hin)).
  reflexivity.
Qed.

End Facts.

(** ** The parser on concrete declarations *)

Import Fixtures.

(** The spec's example: properties declared as [b], [a], [c] come back as
    [a], [b], [c]. *)
Example parse_b_a_c (JSON_parse : string -> option Value) :
  option_map (map name)
    (match parse JSON_parse (declaration bacProperties) with
     | Normal (ok l) => Some l
     | _ => None
     end)
  = Some ["a"; "b"; "c"].
Proof. reflexivity. Qed.

Lemma parsePathParams_sorted_by_name_witness :
  exists params sorted,
    Forall2 (fun p pp => extract JSON_parse_scalar p = Normal (ok pp))
      bacProperties params /\
    parse JSON_parse_scalar (declaration bacProperties)
    = Normal (ok sorted) /\
    Permutation sorted params /\
    length sorted = length bacProperties /\
    StronglySorted nameLt sorted.
Proof.
  apply (parsePathParams_sorted_by_name SpotType unit unit
           Fixtures.parseType Fixtures.isPathParamTypeSafe JSON_parse_scalar
           (declaration bacProperties) tt tt bacProperties).
  - simpl. left. reflexivity.
  - reflexivity.
  - reflexivity.
  - repeat constructor; eexists; reflexivity.
  - simpl. repeat constructor; simpl; intuition discriminate.
Defined.

(** C4, counterexample. In [{ "a b": String, c?: String }] the property
    [c] is optional, yet the failure returned is the ParserError for the
    malformed name of the first property, not an
    OptionalNotAllowedError. *)
Lemma optional_property_after_malformed_name :
  (exists p, In p malformedThenOptional
             /\ hasQuestionToken (prop_questionToken p) = true)
  /\ parse JSON_parse_scalar (declaration malformedThenOptional)
     = Normal (err (newParserError
         "@pathParams property name may only contain alphanumeric, underscore and hyphen characters"
         {| file := "api.ts"; position := 40 |}))
  /\ ~ (exists e, parse JSON_parse_scalar (declaration malformedThenOptional)
                  = Normal (err e)
                  /\ errorClass e = OptionalNotAllowedErrorClass).
Proof.
  split; [|split].
  - exists (property "c" (Some 57%Z) stringType None).
    split; [simpl; auto | reflexivity].
  - reflexivity.
  - intros (e & He & Hc). vm_compute in He.
    injection He as <-. discriminate Hc.
Qed.

Lemma parsePathParams_optional_not_allowed_witness :
  parse JSON_parse_scalar (declaration validThenOptional)
  = Normal (err (newOptionalNotAllowedError
                   "@pathParams property cannot be optional"
                   {| file := "api.ts"; position := 57 |})).
Proof.
  assert (Hdec : In "pathParams" (decorators (declaration validThenOptional)))
    by (simpl; left; reflexivity).
  destruct (parsePathParams_optional_not_allowed SpotType unit unit
              Fixtures.parseType Fixtures.isPathParamTypeSafe
              JSON_parse_scalar (declaration validThenOptional) tt tt Hdec)
    as (_ & Hproperty & _).
  apply (Hproperty [property "a" None stringType None]
           (property "c" (Some 57%Z) stringType None) [] 57%Z).
  - reflexivity.
  - reflexivity.
  - repeat constructor. eexists. reflexivity.
  - reflexivity.
Defined.

(** C5, counterexample. Two [@example] tags are named [dup], but the
    first has no value line: the property fails with "malformed example",
    not with "duplicate example name". *)
Lemma duplicate_name_after_malformed_example :
  map exampleNameOf [ "dup"; exampleComment "dup" "1" ]
  = [ Some "dup"; Some "dup" ]
  /\ extract JSON_parse_scalar duplicateAfterMalformed
     = Normal (err (newParserError "@pathParams malformed example"
                      {| file := "api.ts"; position := 40 |}))
  /\ ~ failsWith ParserErrorClass "@pathParams duplicate example name"
         (extract JSON_parse_scalar duplicateAfterMalformed).
Proof.
  split; [reflexivity|]. split; [reflexivity|].
  intros [loc H]. vm_compute in H. discriminate H.
Qed.

Lemma duplicate_example_name_rejected_witness :
  extract JSON_parse_scalar duplicateExamples
  = Normal (err (newParserError "@pathParams duplicate example name"
                   {| file := "api.ts"; position := 40 |})).
Proof.
  apply (duplicate_example_name_rejected SpotType unit unit
           Fixtures.parseType Fixtures.isPathParamTypeSafe JSON_parse_scalar
           duplicateExamples tt tt int32Type
           [exampleComment "dup" "1"] [] (exampleComment "dup" "2") "dup").
  - reflexivity.
  - exists "id". reflexivity.
  - reflexivity.
  - reflexivity.
  - repeat constructor.
  - reflexivity.
  - reflexivity.
  - simpl. left. reflexivity.
Defined.

(** C1, on the code. A STRING property whose only [@example] has the
    unquoted value [foo] is parsed successfully, whatever [JSON.parse]
    does: the callback of [every] returns the error object, which is
    truthy, so the loop goes on without the example and without an error,
    and the path parameter comes back with an empty list of examples. *)
Theorem unquoted_string_example_is_dropped
    (JSON_parse : string -> option Value) :
  parse JSON_parse (declaration [unquotedStringProperty])
  = Normal (ok [ {| name := "id";
                    type := stringType;
                    description := Some EmptyString;
                    examples := Some [] |} ]).
Proof. reflexivity. Qed.

(** The error for unquoted string examples is built but never handed to
    the caller: no run of [extractPathParamExamples] returns it. *)
Lemma every_never_records_quoted_error
    (TypeNode : Type) (JSON_parse : string -> option Value)
    (p : PropertySignature TypeNode) (type : SpotType)
    (raws : list (option string)) :
  forall st : LoopState,
    (forall e, st_exampleError st = Some (err e) ->
               message e <> "@pathParams string examples must be quoted") ->
    forall e,
      st_exampleError
        (every ToBoolean (exampleCallback JSON_parse p type) st raws)
      = Some (err e) ->
      message e <> "@pathParams string examples must be quoted".
Proof.
  induction raws as [|raw raws IH]; intros st Hst e; simpl.
  - apply Hst.
  - unfold exampleCallback at 1.
    destruct (truthy_string (lineOf raw 0)) as [n|];
      [|simpl; intros [= <-]; discriminate].
    destruct (truthy_string (lineOf raw 1)) as [v|];
      [|simpl; intros [= <-]; discriminate].
    destruct (existsb _ (st_examples st));
      [simpl; intros [= <-]; discriminate|].
    destruct (TypeKind_eqb (kind type) STRING && unquoted v);
      [simpl; now apply IH|].
    destruct (JSON_parse v) as [pv|];
      [|simpl; intros [= <-]; discriminate].
    simpl. now apply IH.
Qed.

Lemma quoted_error_never_returned
    (TypeNode : Type) (JSON_parse : string -> option Value)
    (p : PropertySignature TypeNode) (type : SpotType) (e : ParserError) :
  extractPathParamExamples JSON_parse p type = Some (err e) ->
  message e <> "@pathParams string examples must be quoted".
Proof.
  unfold extractPathParamExamples.
  destruct (rawExamplesOf p) as [raws|]; [|discriminate].
  destruct (existsb isUndefined raws); [intros [= <-]; discriminate|].
  destruct (0 <? length raws)%nat; [|discriminate].
  destruct (st_exampleError _) as [[l|e']|] eqn:E.
  - discriminate.
  - intros [= <-]. revert E.
    apply every_never_records_quoted_error. simpl. discriminate.
  - destruct (existsb _ _); [intros [= <-]|]; discriminate.
Qed.

(** The same holds for every unquoted value, on the examples step. *)
Lemma unquoted_string_example_skipped
    (TypeNode : Type) (JSON_parse : string -> option Value)
    (p : PropertySignature TypeNode) (type : SpotType)
    (comment exampleName exampleValue : string) :
  kind type = STRING ->
  rawExamplesOf p = Some [Some comment] ->
  exampleNameOf comment = Some exampleName ->
  exampleValueOf comment = Some exampleValue ->
  unquoted exampleValue = true ->
  extractPathParamExamples JSON_parse p type = Some (ok []).
Proof.
  intros Hk Hraw Hn Hv Hu.
  unfold extractPathParamExamples. rewrite Hraw. simpl.
  unfold exampleCallback.
  fold (exampleNameOf comment). fold (exampleValueOf comment).
  rewrite Hn, Hv, Hk, Hu. reflexivity.
Qed.

(** C2, on the code. The FLOAT property with the example [1.5], a JSON
    number, is rejected: [typeOf] calls a value a number only when its
    string form is an integer. *)
Theorem float_example_is_rejected :
  JSON_parse_scalar "1.5"
  = Some (VNumber {| neg := false; mantissa := 15; exponent := -1 |})
  /\ typeOf (VNumber {| neg := false; mantissa := 15; exponent := -1 |})
     = "string"
  /\ parse JSON_parse_scalar (declaration [floatProperty])
     = Normal (err (newParserError
                      "@pathParams type of example must match type of param"
                      {| file := "api.ts"; position := 40 |})).
Proof. repeat split; reflexivity. Qed.

(** [typeOf] looks at the string form of the value and not at its type:
    an INT32 property takes the JSON string ["123"] as an example, and a
    STRING property rejects it. *)
Lemma digit_string_example_is_a_number :
  typeOf (VString "123") = "number"
  /\ (exists pp, extract JSON_parse_scalar int32WithStringExample
                 = Normal (ok pp)
                 /\ option_map (map example_value) (examples pp)
                    = Some [VString "123"])
  /\ extract JSON_parse_scalar stringWithDigitsExample
     = Normal (err (newParserError
                      "@pathParams type of example must match type of param"
                      {| file := "api.ts"; position := 40 |})).
Proof.
  split; [reflexivity|]. split; [|reflexivity].
  eexists. split; reflexivity.
Qed.

(** [typeOf] on the values of each type. *)
Lemma typeOf_cases (v : Value) :
  typeOf v =
  if test_integer_pattern (ToString v) then "number"
  else match v with VBoolean _ => "boolean" | _ => "string" end.
Proof. reflexivity. Qed.

Lemma typeOf_boolean (b : bool) : typeOf (VBoolean b) = "boolean".
Proof. now destruct b. Qed.

(** C10, on the code. The STRING property has two [@example] tags, the
    second with an unquoted value: it is parsed successfully and its
    [examples] field holds one entry, not two. *)
Theorem examples_fewer_than_tags :
  option_map (@length _) (rawExamplesOf quotedThenUnquoted) = Some 2%nat
  /\ exists pp,
       extract JSON_parse_scalar quotedThenUnquoted = Normal (ok pp)
       /\ examples pp
          = Some [ {| example_name := "first";
                      example_value := VString "x" |} ].
Proof.
  split; [reflexivity|]. eexists. split; reflexivity.
Qed.

(** With a single unquoted example the field is present and empty. *)
Lemma examples_present_but_empty (JSON_parse : string -> option Value) :
  option_map (@length _) (rawExamplesOf unquotedStringProperty)
  = Some 1%nat
  /\ exists pp,
       extract JSON_parse unquotedStringProperty = Normal (ok pp)
       /\ examples pp = Some [].
Proof.
  split; [reflexivity|]. eexists. split; reflexivity.
Qed.

(** Without documentation there is no [examples] field. *)
Example examples_absent (JSON_parse : string -> option Value) :
  extract JSON_parse undocumentedProperty
  = Normal (ok {| name := "id"; type := int32Type;
                  description := None; examples := None |}).
Proof. reflexivity. Qed.

End PathParamsParserFacts.

(* ===================================================================== *)
(** * Properties of the Express server generator *)
(* ===================================================================== *)

Module ExpressServerFacts.
Import JS ExpressServer ExpressServerSpec.

Section Facts.

Variable IRType : Type.
Variable TSTypeNode : Type.
Variable isVoid : Api IRType -> IRType -> bool.
Variable outputTypeScriptSource : list (Statement TSTypeNode) -> string.
Variable typeNode : IRType -> TSTypeNode.
Variable promiseTypeNode : IRType -> TSTypeNode.
Variable endpointPropertyTypeName :
  string -> string -> option string -> string.
Variable validatorName : string -> string.
Variable validateStatement :
  Expression TSTypeNode -> string -> string -> Statement TSTypeNode.
Variable gatherTypes : Endpoint IRType -> list IRType.
Variable typeReferenceName : IRType -> option string.
Variable integerConstant : IntOrNaN -> IRType.
Variable NUMBER : IRType.
Variable objectType : list (string * IRType) -> IRType.
Variable unionType : list IRType -> IRType.
Variable parseInt : string -> IntOrNaN.

Local Abbreviation generateValidateAndSendResponse :=
  (generateValidateAndSendResponse (IRType := IRType)
     endpointPropertyTypeName validatorName validateStatement).
Local Abbreviation generateEndpointRoute :=
  (generateEndpointRoute isVoid endpointPropertyTypeName validatorName
     validateStatement).
Local Abbreviation generateExpressServerSource_statements :=
  (generateExpressServerSource_statements isVoid endpointPropertyTypeName
     validatorName validateStatement).
Local Abbreviation generateEndpointHandlerSource_statements :=
  (generateEndpointHandlerSource_statements isVoid typeNode promiseTypeNode
     gatherTypes typeReferenceName integerConstant NUMBER objectType
     unionType parseInt).

(** ** Paths *)

Lemma pathString_routeTemplate (endpoint : Endpoint IRType) :
  pathString endpoint = routeTemplate (path endpoint).
Proof.
  unfold pathString.
  induction (path endpoint) as [|[content|name type] rest IH]; simpl.
  - reflexivity.
  - now rewrite <- IH.
  - now rewrite <- IH.
Qed.

Lemma compact_dynamic {B : Type} (f : string -> IRType -> B)
    (l : list (PathComponent IRType)) :
  compact (map (fun pathComponent =>
                  match pathComponent with
                  | dynamic name type => Some (f name type)
                  | static _ => None
                  end) l)
  = map (fun '(name, type) => f name type) (dynamicComponents l).
Proof.
  induction l as [|[content|name type] rest IH]; simpl.
  - reflexivity.
  - exact IH.
  - now rewrite IH.
Qed.

(** ** Route registrations *)






(** ** Response handling *)

Lemma block_ending_in_return (l : list (Statement TSTypeNode)) :
  canCompleteNormally (Block (l ++ [Return])%list true) = false.
Proof.
  simpl. induction l as [|s l IH]; simpl; [reflexivity|].
  rewrite IH. apply andb_false_r.
Qed.

(** C7. For every endpoint and every status code among its custom error
    types, the response-handling statements contain, before the
    success/default-error [if], the statement
    [if (response.status === code) { validate; res.status(...);
    res.json(...); return; }], where the validation is that of
    [response.data] against the custom-error validator of that status
    code with the message "Invalid error response for status code";
    control cannot run past the end of that block. *)
Theorem custom_error_branch_returns (endpointName : string)
    (endpoint : Endpoint IRType) (statusCode : string) :
  In statusCode (map fst (customErrorTypes endpoint)) ->
  exists before after body,
    generateValidateAndSendResponse endpointName endpoint
    = (before
       ++ [ If (Binary (PropertyAccess (Identifier "response") "status")
                  EqualsEqualsEqualsToken (NumericLiteral statusCode))
              body None ]
       ++ after
       ++ [ successOrDefaultErrorBranch endpointPropertyTypeName
              validatorName validateStatement endpointName ]
       ++ [ ExpressionStatement
              (Call (PropertyAccess (Identifier "res") "status")
                 [PropertyAccess (Identifier "response") "status"]);
            ExpressionStatement
              (Call (PropertyAccess (Identifier "res") "json")
                 [PropertyAccess (Identifier "response") "data"]) ])%list
    /\ body
       = Block
           [ validateStatement
               (PropertyAccess (Identifier "response") "data")
               (validatorName
                  (endpointPropertyTypeName endpointName "customError"
                     (Some statusCode)))
               ("Invalid error response for status " ++ statusCode);
             ExpressionStatement
               (Call (PropertyAccess (Identifier "res") "status")
                  [PropertyAccess (Identifier "response") "status"]);
             ExpressionStatement
               (Call (PropertyAccess (Identifier "res") "json")
                  [PropertyAccess (Identifier "response") "data"]);
             Return ]
           true
    /\ canCompleteNormally body = false.
Proof.
  intros Hin.
  apply in_split in Hin. destruct Hin as (codesBefore & codesAfter & Hcodes).
  exists (map (customErrorBranch endpointPropertyTypeName validatorName
                 validateStatement endpointName) codesBefore),
         (map (customErrorBranch endpointPropertyTypeName validatorName
                 validateStatement endpointName) codesAfter).
  eexists. split; [|split].
  - unfold ExpressServer.generateValidateAndSendResponse.
    rewrite Hcodes, map_app. cbn [map].
    rewrite <- !app_assoc. reflexivity.
  - reflexivity.
  - apply (block_ending_in_return
             [ validateStatement _ _ _;
               ExpressionStatement _; ExpressionStatement _ ]).
Qed.

(** ** The call of the endpoint function *)

(** C8. The handler body of every route is: statements that bind and
    validate the request, the path parameters and the headers; then
    [const response = await endpoint(arguments)], the arguments being the
    parsed request exactly when the request type is not void, then the
    dynamic path components in path order, then the headers in
    declaration order; then the response handling. *)
Theorem endpoint_called_with_ordered_arguments (api : Api IRType)
    (endpointName : string) (endpoint : Endpoint IRType) :
  exists bindings,
    generateEndpointRoute api endpointName endpoint
    = ExpressionStatement
        (Call
           (PropertyAccess (Identifier "app")
              (toLowerCase (method endpoint)))
           [ StringLiteral (routeTemplate (path endpoint));
             ArrowFunction [AsyncKeyword]
               [ {| parameter_name := "req"; parameter_type := None |};
                 {| parameter_name := "res"; parameter_type := None |} ]
               (Block
                  (bindings
                   ++ [ VariableStatement
                          [ ("response",
                             Await (Call (Identifier endpointName)
                                      (callArguments isVoid api endpoint))) ]
                          Const ]
                   ++ generateValidateAndSendResponse endpointName endpoint
                  )%list true) ])
    /\ bindings
       = (requestStatements isVoid endpointPropertyTypeName validatorName
            validateStatement api endpointName endpoint
          ++ pathParamStatements endpointPropertyTypeName validatorName
               validateStatement endpointName endpoint
          ++ headerStatements endpointPropertyTypeName validatorName
               validateStatement endpointName endpoint)%list.
Proof.
  eexists. split; [|reflexivity].
  unfold ExpressServer.generateEndpointRoute, endpointCall, callArguments.
  rewrite pathString_routeTemplate.
  rewrite (compact_dynamic (fun name _ => Identifier name)).
  rewrite map_map.
  rewrite (map_ext (fun x : string * Header IRType =>
                      Identifier (TSTypeNode := TSTypeNode) (fst x))
             (fun '(headerName, _) => Identifier headerName))
    by now intros [headerName header].
  rewrite <- !app_assoc. reflexivity.
Qed.

(** ** The stub *)

(** C9. The statements of the generated stub are imports followed by one
    function declaration: exported, [async], named after the endpoint;
    its parameters are the request (typed by the request type) exactly
    when the request type is not void, then one typed parameter for each
    dynamic path component in path order, then one typed parameter for
    each header in declaration order; its return type is the Promise of
    the union of [{status: 200, data: responseType}], one
    [{status: code, data: type}] for each custom error type, and
    [{status: number, data: defaultErrorType}]; and its body is the
    single statement [throw new Error("Endpoint name is not yet
    implemented!")], so control never reaches its end. *)
Theorem stub_signature_and_body (api : Api IRType) (endpointName : string)
    (endpoint : Endpoint IRType) :
  exists imports body,
    generateEndpointHandlerSource_statements api endpointName endpoint
    = (imports
       ++ [ FunctionDeclaration [ExportKeyword; AsyncKeyword] endpointName
              (stubParameters isVoid typeNode api endpoint)
              (promiseTypeNode
                 (unionType
                    ([ objectType [ ("status", integerConstant (Some 200%Z));
                                    ("data", responseType endpoint) ] ]
                     ++ map (fun '(statusCode, type) =>
                               objectType
                                 [ ("status",
                                    integerConstant (parseInt statusCode));
                                   ("data", type) ])
                          (customErrorTypes endpoint)
                     ++ [ objectType
                            [ ("status", NUMBER);
                              ("data", defaultErrorType endpoint) ] ])%list))
              body ])%list
    /\ forallb isImport imports = true
    /\ body
       = Block
           [ ThrowStatement
               (New (Identifier "Error")
                  [ StringLiteral
                      ("Endpoint " ++ endpointName
                       ++ " is not yet implemented!") ]) ]
           true
    /\ canCompleteNormally body = false.
Proof.
  unfold ExpressServer.generateEndpointHandlerSource_statements.
  eexists. eexists. split; [|split; [|split]].
  - f_equal. f_equal. unfold handlerParameters, stubParameters.
    rewrite (compact_dynamic
               (fun name type => createTypedParameter name (typeNode type))).
    f_equal.
  - now destruct (0 <? length _)%nat.
  - reflexivity.
  - reflexivity.
Qed.

End Facts.

(** ** The generator on a concrete endpoint *)

Import Fixtures.

(** The spec's example: [GET] with path [static "/users/"; dynamic "id"]
    is bound to [/users/:id], and the endpoint function is called with
    [id]. *)
Example getUser_route :
  asRouteRegistration
    (generateEndpointRoute isVoid endpointPropertyTypeName validatorName
       validateStatement usersApi "getUser" getUser)
  = Some ("get", "/users/:id")
  /\ callArguments (TSTypeNode := string) isVoid usersApi getUser
     = [ Identifier "id" ].
Proof. split; reflexivity. Qed.

Lemma custom_error_branch_returns_witness :
  exists before after body,
    generateValidateAndSendResponse endpointPropertyTypeName validatorName
      validateStatement "getUser" getUser
    = (before
       ++ [ If (Binary (PropertyAccess (Identifier "response") "status")
                  EqualsEqualsEqualsToken (NumericLiteral "404"))
              body None ]
       ++ after
       ++ [ successOrDefaultErrorBranch endpointPropertyTypeName
              validatorName validateStatement "getUser" ]
       ++ [ ExpressionStatement
              (Call (PropertyAccess (Identifier "res") "status")
                 [PropertyAccess (Identifier "response") "status"]);
            ExpressionStatement
              (Call (PropertyAccess (Identifier "res") "json")
                 [PropertyAccess (Identifier "response") "data"]) ])%list
    /\ body
       = Block
           [ validateStatement
               (PropertyAccess (Identifier "response") "data")
               (validatorName
                  (endpointPropertyTypeName "getUser" "customError"
                     (Some "404")))
               ("Invalid error response for status " ++ "404");
             ExpressionStatement
               (Call (PropertyAccess (Identifier "res") "status")
                  [PropertyAccess (Identifier "response") "status"]);
             ExpressionStatement
               (Call (PropertyAccess (Identifier "res") "json")
                  [PropertyAccess (Identifier "response") "data"]);
             Return ]
           true
    /\ canCompleteNormally body = false.
Proof.
  apply (custom_error_branch_returns string string endpointPropertyTypeName
           validatorName validateStatement "getUser" getUser "404").
  simpl. left. reflexivity.
Defined.

End ExpressServerFacts.

(* ===================================================================== *)
(** * Further properties of the path-parameter parser *)
(* ===================================================================== *)

Module PathParamsParserMore.
Import JS PathParamsParser PathParamsSpec ExamplesSpec JSFacts.
Import PathParamsParserFacts.

Lemma forallb_string_forall (f : ascii -> bool) (s : string) :
  forallb_string f s = true
  <-> forall c, In c (list_ascii_of_string s) -> f c = true.
Proof.
  induction s as [|a s IH]; simpl.
  - split; [intros _ c [] | reflexivity].
  - rewrite andb_true_iff, IH. split.
    + intros [Ha Hs] c [<-|Hc]; auto.
    + intros H. split; [apply H; now left | intros c Hc; apply H; now right].
Qed.

Lemma forallb_string_exists (f : ascii -> bool) (s : string) :
  forallb_string f s = false
  <-> exists c, In c (list_ascii_of_string s) /\ f c = false.
Proof.
  induction s as [|a s IH]; simpl.
  - split; [discriminate | intros (c & [] & _)].
  - rewrite andb_false_iff, IH. split.
    + intros [Ha | (c & Hc & Hf)]; [exists a | exists c]; auto.
    + intros (c & [<-|Hc] & Hf); [now left | right; now exists c].
Qed.

Lemma length_zero_empty (s : string) :
  (String.length s =? 0)%nat = true <-> s = EmptyString.
Proof. destruct s; simpl; split; easy. Qed.

Lemma no_undefined (raws : list (option string)) :
  existsb isUndefined raws = false ->
  exists comments, raws = map Some comments.
Proof.
  induction raws as [|[c|] raws IH]; simpl; intros H.
  - now exists [].
  - destruct (IH H) as [comments ->]. now exists (c :: comments).
  - discriminate.
Qed.



Section More.

Variable TypeNode TypeTable LociTable : Type.
Variable parseType :
  TypeNode -> TypeTable -> LociTable -> Result SpotType ParserError.
Variable isPathParamTypeSafe : SpotType -> TypeTable -> bool.
Variable JSON_parse : string -> option Value.

Local Abbreviation extractPathParam :=
  (extractPathParam parseType isPathParamTypeSafe JSON_parse).
Local Abbreviation extractPathParamType :=
  (extractPathParamType parseType isPathParamTypeSafe).
Local Abbreviation extractAll :=
  (extractAll parseType isPathParamTypeSafe JSON_parse).
Local Abbreviation parsePathParams :=
  (parsePathParams parseType isPathParamTypeSafe JSON_parse).
Local Abbreviation extractPathParamExamples :=
  (extractPathParamExamples JSON_parse).
Local Abbreviation callback := (exampleCallback JSON_parse).

(** ** One step of the loop over the examples *)




(** The outcomes of one call of the callback. *)
Lemma callback_cases (p : PropertySignature TypeNode) (type : SpotType)
    (st : LoopState) (c : string) :
  (exists msg,
      callback p type st (Some c)
      = ({| st_examples := st_examples st;
            st_exampleError := Some (err (newParserError msg (here p))) |},
         RetBoolean false))
  \/ (skippedComment type c = true
      /\ exists r, callback p type st (Some c) = (st, RetObject r))
  \/ (exists ex,
        acceptable JSON_parse type c = true
        /\ skippedComment type c = false
        /\ exampleOfComment JSON_parse c = Some ex
        /\ ~ In (example_name ex) (map example_name (st_examples st))
        /\ callback p type st (Some c)
           = ({| st_examples := (st_examples st ++ [ex])%list;
                 st_exampleError := st_exampleError st |}, RetBoolean true)).
Proof.
  unfold exampleCallback, skippedComment, acceptable, exampleOfComment.
  fold (exampleNameOf c). fold (exampleValueOf c).
  destruct (exampleNameOf c) as [n|]; [|left; eexists; reflexivity].
  destruct (exampleValueOf c) as [v|]; [|left; eexists; reflexivity].
  destruct (existsb _ (st_examples st)) eqn:Edup;
    [left; eexists; reflexivity|].
  destruct (TypeKind_eqb (kind type) STRING && unquoted v) eqn:Eq.
  - right. left. split; [reflexivity | eexists; reflexivity].
  - destruct (JSON_parse v) as [pv|]; [|left; eexists; reflexivity].
    right. right. eexists. repeat split.
    simpl. intros Hin. apply existsb_example_name in Hin. congruence.
Qed.

(** ** Runs of the loop *)

(** A run that ends without an error. *)
Lemma every_success (p : PropertySignature TypeNode) (type : SpotType)
    (comments : list string) :
  forall st : LoopState,
    st_exampleError (every ToBoolean (callback p type) st
                       (map Some comments)) = None ->
    Forall (fun c => skippedComment type c = true
                     \/ acceptable JSON_parse type c = true) comments
    /\ st_examples (every ToBoolean (callback p type) st (map Some comments))
       = (st_examples st ++ examplesOfComments JSON_parse type comments)%list
    /\ (NoDup (map example_name (st_examples st)) ->
        NoDup (map example_name
                 (st_examples (every ToBoolean (callback p type) st
                                 (map Some comments))))).
Proof.
  induction comments as [|c comments IH]; intros st; cbn [map every].
  - intros _. split; [constructor|]. split; [now rewrite app_nil_r|auto].
  - destruct (callback_cases p type st c)
      as [(msg & Hr) | [(Hs & r & Hr) | (ex & Ha & Hs & Hex & Hfresh & Hr)]];
      rewrite Hr; cbn [ToBoolean].
    + discriminate.
    + intros Hend. destruct (IH st Hend) as (Hall & Hex & Hnd).
      split; [constructor; auto|]. cbn [examplesOfComments].
      rewrite Hs. auto.
    + intros Hend. destruct (IH _ Hend) as (Hall & Hexs & Hnd).
      cbn [st_examples] in *.
      split; [constructor; auto|]. cbn [examplesOfComments].
      rewrite Hs, Hex. split.
      * now rewrite Hexs, <- app_assoc.
      * intros Hst. apply Hnd. rewrite map_app.
        apply NoDup_app; [assumption | repeat constructor; easy |].
        intros n Hn [<-|[]]. contradiction.
Qed.



(** Every error the loop records is a ParserError at the property. *)
Lemma every_error_here (p : PropertySignature TypeNode) (type : SpotType)
    (raws : list (option string)) :
  forall st : LoopState,
    (forall r, st_exampleError st = Some r ->
               exists msg, r = err (newParserError msg (here p))) ->
    forall r,
      st_exampleError (every ToBoolean (callback p type) st raws) = Some r ->
      exists msg, r = err (newParserError msg (here p)).
Proof.
  induction raws as [|raw raws IH]; intros st Hst r; cbn [every].
  - apply Hst.
  - unfold exampleCallback at 1.
    destruct (truthy_string (lineOf raw 0)) as [n|];
      [|cbn; intros [= <-]; eauto].
    destruct (truthy_string (lineOf raw 1)) as [v|];
      [|cbn; intros [= <-]; eauto].
    destruct (existsb _ (st_examples st)); [cbn; intros [= <-]; eauto|].
    destruct (TypeKind_eqb (kind type) STRING && unquoted v);
      [cbn; now apply IH|].
    destruct (JSON_parse v) as [pv|]; [|cbn; intros [= <-]; eauto].
    cbn. now apply IH.
Qed.

(** ** What [extractPathParamExamples] returns *)

Lemma examples_err_inv (p : PropertySignature TypeNode) (type : SpotType)
    (e : ParserError) :
  extractPathParamExamples p type = Some (err e) ->
  exists msg, e = newParserError msg (here p).
Proof.
  unfold PathParamsParser.extractPathParamExamples.
  destruct (rawExamplesOf p) as [raws|]; [|discriminate].
  destruct (existsb isUndefined raws); [intros [= <-]; eauto|].
  destruct (0 <? length raws)%nat; [|discriminate].
  destruct (st_exampleError _) as [r|] eqn:E.
  - intros [= ->].
    apply every_error_here in E; [|cbn; discriminate].
    destruct E as [msg [= ->]]. eauto.
  - destruct (existsb _ _); [intros [= <-]; eauto | discriminate].
Qed.

Lemma examples_ok_inv (p : PropertySignature TypeNode) (type : SpotType)
    (result : list Example) :
  extractPathParamExamples p type = Some (ok result) ->
  exists comments,
    rawExamplesOf p = Some (map Some comments)
    /\ comments <> []
    /\ Forall (fun c => skippedComment type c = true
                        \/ acceptable JSON_parse type c = true) comments
    /\ result = examplesOfComments JSON_parse type comments
    /\ NoDup (map example_name result)
    /\ Forall (fun ex => typeOf (example_value ex) = typeSpecified type)
         result.
Proof.
  unfold PathParamsParser.extractPathParamExamples.
  destruct (rawExamplesOf p) as [raws|]; [|discriminate].
  destruct (existsb isUndefined raws) eqn:Eundef; [discriminate|].
  destruct (no_undefined raws Eundef) as [comments ->]. clear Eundef.
  destruct (0 <? length (map Some comments))%nat eqn:Elen; [|discriminate].
  destruct (st_exampleError _) as [r|] eqn:E.
  - intros [= ->].
    apply every_error_here in E; [|cbn; discriminate].
    destruct E as [msg [=]].
  - destruct (every_success p type comments _ E) as (Hall & Hex & Hnd).
    cbn [st_examples app] in Hex, Hnd.
    destruct (existsb _ _) eqn:Emis; [discriminate|].
    intros [= <-]. exists comments. repeat split.
    + intros ->. discriminate Elen.
    + assumption.
    + assumption.
    + apply Hnd. constructor.
    + apply Forall_forall. intros ex Hin.
      destruct (String.eqb_spec (typeOf (example_value ex))
                  (typeSpecified type)) as [Heq|Hne]; [assumption|].
      exfalso.
      assert (Hex' : existsb
                (fun t => negb (String.eqb t (typeSpecified type)))
                (map (fun ex => typeOf (example_value ex))
                   (st_examples
                      (every ToBoolean (callback p type)
                         {| st_examples := []; st_exampleError := None |}
                         (map Some comments)))) = true).
      { apply existsb_exists. exists (typeOf (example_value ex)).
        split; [apply in_map_iff; now exists ex|].
        apply negb_true_iff. now apply String.eqb_neq. }
      congruence.
Qed.

(** X1. In a successful result the names of the examples are pairwise
    different. *)
Theorem example_names_distinct (p : PropertySignature TypeNode)
    (type : SpotType) (result : list Example) :
  extractPathParamExamples p type = Some (ok result) ->
  NoDup (map example_name result).
Proof.
  intros H. now destruct (examples_ok_inv p type result H)
    as (comments & _ & _ & _ & _ & Hnd & _).
Qed.

(** X2. A successful result is read off the [@example] tags: every tag
    has a comment with non-blank name and value lines; a tag is either an
    unquoted value of a STRING property, which is passed over, or its
    value parses as JSON; and the result lists, in the order of the tags,
    the trimmed name and the parsed value of each tag that is not passed
    over. *)
Theorem examples_follow_the_tags (p : PropertySignature TypeNode)
    (type : SpotType) (result : list Example) :
  extractPathParamExamples p type = Some (ok result) ->
  exists comments,
    rawExamplesOf p = Some (map Some comments)
    /\ comments <> []
    /\ Forall (fun c => skippedComment type c = true
                        \/ acceptable JSON_parse type c = true) comments
    /\ result = examplesOfComments JSON_parse type comments.
Proof.
  intros H. destruct (examples_ok_inv p type result H)
    as (comments & Hraw & Hne & Hall & Hres & _).
  now exists comments.
Qed.

Lemma typeOf_boolean_inv (v : Value) :
  typeOf v = "boolean" -> exists b, v = VBoolean b.
Proof.
  unfold typeOf. destruct (test_integer_pattern (ToString v)); [discriminate|].
  destruct v; try discriminate. eauto.
Qed.

Lemma typeOf_number_inv (v : Value) :
  typeOf v = "number" -> test_integer_pattern (ToString v) = true.
Proof.
  unfold typeOf. destruct (test_integer_pattern (ToString v)); [reflexivity|].
  destruct v; discriminate.
Qed.

Lemma typeOf_string_inv (v : Value) :
  typeOf v = "string" ->
  test_integer_pattern (ToString v) = false
  /\ forall b, v <> VBoolean b.
Proof.
  unfold typeOf. destruct (test_integer_pattern (ToString v)); [discriminate|].
  destruct v; try discriminate; split; congruence.
Qed.

(** X3. What a successful result says about the values, by the kind of
    the property: for BOOLEAN every value is a boolean; for INT32, INT64,
    FLOAT and DOUBLE the string form of every value is an optional minus
    sign followed by digits; for STRING no value is a boolean and no value
    has such a string form. *)
Theorem example_values_by_kind (p : PropertySignature TypeNode)
    (type : SpotType) (result : list Example) :
  extractPathParamExamples p type = Some (ok result) ->
  (kind type = BOOLEAN ->
   Forall (fun ex => exists b, example_value ex = VBoolean b) result)
  /\ (kind type = INT32 \/ kind type = INT64 \/ kind type = FLOAT
      \/ kind type = DOUBLE ->
      Forall (fun ex =>
                test_integer_pattern (ToString (example_value ex)) = true)
        result)
  /\ (kind type = STRING ->
      Forall (fun ex =>
                test_integer_pattern (ToString (example_value ex)) = false
                /\ forall b, example_value ex <> VBoolean b)
        result).
Proof.
  intros H. destruct (examples_ok_inv p type result H)
    as (comments & _ & _ & _ & _ & _ & Htypes).
  repeat split; intros Hk; eapply Forall_impl; try exact Htypes;
    cbv beta; intros ex; unfold typeSpecified.
  - rewrite Hk. apply typeOf_boolean_inv.
  - destruct Hk as [Hk|[Hk|[Hk|Hk]]]; rewrite Hk; apply typeOf_number_inv.
  - rewrite Hk. apply typeOf_string_inv.
Qed.

(** X4. An [@example] tag without a comment fails the property with
    "example must not be empty", whatever the other tags are. *)
Theorem example_without_comment (p : PropertySignature TypeNode)
    (type : SpotType) (raws : list (option string)) :
  rawExamplesOf p = Some raws ->
  In None raws ->
  extractPathParamExamples p type
  = Some (err (newParserError "@pathParams example must not be empty"
                 (here p))).
Proof.
  intros Hraw Hin. unfold PathParamsParser.extractPathParamExamples.
  rewrite Hraw.
  replace (existsb isUndefined raws) with true; [reflexivity|].
  symmetry. apply existsb_exists. now exists None.
Qed.




(** ** Names and types *)

Lemma extractPathParamName_valid (p : PropertySignature TypeNode)
    (n : string) :
  extractPathParamName p = ok n -> n = getPropertyName p /\ validName n.
Proof.
  unfold extractPathParamName, validName.
  destruct (test_name_pattern (getPropertyName p)) eqn:Epat; [|discriminate].
  cbn [negb].
  destruct (String.length (getPropertyName p) =? 0)%nat eqn:Elen;
    [discriminate|].
  intros [= <-]. repeat split.
  - intros Hempty. apply length_zero_empty in Hempty. congruence.
  - now apply forallb_string_forall.
Qed.

Lemma validName_accepted (p : PropertySignature TypeNode) :
  validName (getPropertyName p) ->
  extractPathParamName p = ok (getPropertyName p).
Proof.
  intros [Hne Hall]. unfold extractPathParamName.
  apply forallb_string_forall in Hall. unfold test_name_pattern.
  rewrite Hall. cbn [negb].
  destruct (String.length (getPropertyName p) =? 0)%nat eqn:Elen;
    [|reflexivity].
  apply length_zero_empty in Elen. contradiction.
Qed.

Lemma extractPathParamType_ok_inv (p : PropertySignature TypeNode)
    (typeTable : TypeTable) (lociTable : LociTable) (t : SpotType) :
  extractPathParamType p typeTable lociTable = Normal (ok t) ->
  exists node,
    prop_typeNode p = Some node
    /\ parseType node typeTable lociTable = ok t
    /\ isPathParamTypeSafe t typeTable = true.
Proof.
  unfold PathParamsParser.extractPathParamType, getTypeNodeOrThrow.
  destruct (prop_typeNode p) as [node|]; [|discriminate]. cbn.
  destruct (parseType node typeTable lociTable) as [t'|e] eqn:Ep;
    [|discriminate].
  destruct (isPathParamTypeSafe t' typeTable) eqn:Es; [|discriminate].
  cbn. intros [= <-]. eauto.
Qed.

Lemma extractPathParamType_err_inv (p : PropertySignature TypeNode)
    (typeTable : TypeTable) (lociTable : LociTable) (e : ParserError) :
  extractPathParamType p typeTable lociTable = Normal (err e) ->
  (exists node, prop_typeNode p = Some node
                /\ parseType node typeTable lociTable = err e)
  \/ exists msg, e = newParserError msg (here p).
Proof.
  unfold PathParamsParser.extractPathParamType, getTypeNodeOrThrow.
  destruct (prop_typeNode p) as [node|]; [|discriminate]. cbn.
  destruct (parseType node typeTable lociTable) as [t'|e'] eqn:Ep.
  - destruct (isPathParamTypeSafe t' typeTable); cbn; [discriminate|].
    intros [= <-]. right. eauto.
  - intros [= <-]. left. eauto.
Qed.

Lemma extractPathParam_ok_inv (p : PropertySignature TypeNode)
    (typeTable : TypeTable) (lociTable : LociTable) (pp : PathParam) :
  extractPathParam p typeTable lociTable = Normal (ok pp) ->
  prop_questionToken p = None
  /\ extractPathParamName p = ok (name pp)
  /\ extractPathParamType p typeTable lociTable = Normal (ok (type pp))
  /\ description pp
     = option_map (fun doc => trim (getDescription doc)) (getJsDoc p)
  /\ extractPathParamExamples p (type pp)
     = option_map ok (examples pp).
Proof.
  unfold PathParamsParser.extractPathParam.
  destruct (prop_questionToken p) as [pos|]; [cbn; discriminate|].
  cbn [hasQuestionToken].
  destruct (extractPathParamName p) as [n|e]; [|discriminate].
  destruct (extractPathParamType p typeTable lociTable) as [[t|e]|w];
    cbn [bind]; try discriminate.
  destruct (extractPathParamExamples p t) as [[l|e]|] eqn:Eex;
    try discriminate; intros [= <-]; cbn; auto.
Qed.

Lemma extractPathParam_err_inv (p : PropertySignature TypeNode)
    (typeTable : TypeTable) (lociTable : LociTable) (e : ParserError) :
  extractPathParam p typeTable lociTable = Normal (err e) ->
  (exists pos,
      prop_questionToken p = Some pos
      /\ e = newOptionalNotAllowedError
               "@pathParams property cannot be optional"
               {| file := prop_filePath p; position := pos |})
  \/ (prop_questionToken p = None
      /\ ((exists node, prop_typeNode p = Some node
                        /\ parseType node typeTable lociTable = err e)
          \/ exists msg, e = newParserError msg (here p))).
Proof.
  unfold PathParamsParser.extractPathParam.
  destruct (prop_questionToken p) as [pos|].
  { cbn. intros [= <-]. left. eauto. }
  cbn [hasQuestionToken]. intros H. right. split; [reflexivity|].
  revert H. unfold extractPathParamName.
  destruct (negb (test_name_pattern (getPropertyName p)));
    [intros [= <-]; right; eauto|].
  destruct (String.length (getPropertyName p) =? 0)%nat;
    [intros [= <-]; right; eauto|].
  destruct (extractPathParamType p typeTable lociTable) as [[t|e']|w] eqn:Et;
    cbn [bind]; try discriminate.
  - destruct (extractPathParamExamples p t) as [[l|e']|] eqn:Eex;
      try discriminate.
    intros [= <-]. right. now apply examples_err_inv with t.
  - intros [= <-]. now apply extractPathParamType_err_inv in Et.
Qed.

(** ** The loop over the properties, again *)

Lemma extractAll_ok_results (properties : list (PropertySignature TypeNode))
    (typeTable : TypeTable) (lociTable : LociTable) :
  forall acc result,
    extractAll properties typeTable lociTable acc = Normal (ok result) ->
    exists params,
      Forall2 (fun p pp => extractPathParam p typeTable lociTable
                           = Normal (ok pp)) properties params
      /\ result = (acc ++ params)%list.
Proof.
  induction properties as [|p properties IH]; intros acc result; cbn.
  - intros [= <-]. exists []. split; [constructor | now rewrite app_nil_r].
  - destruct (extractPathParam p typeTable lociTable)
      as [[pp|e]|w] eqn:Hp; cbn; try discriminate.
    intros H. destruct (IH _ _ H) as (params & Hall & ->).
    exists (pp :: params). split; [now constructor|].
    now rewrite <- app_assoc.
Qed.

Lemma extractAll_err_source (properties : list (PropertySignature TypeNode))
    (typeTable : TypeTable) (lociTable : LociTable) (e : ParserError) :
  forall acc,
    extractAll properties typeTable lociTable acc = Normal (err e) ->
    exists p, In p properties
              /\ extractPathParam p typeTable lociTable = Normal (err e).
Proof.
  induction properties as [|p properties IH]; intros acc; cbn.
  - discriminate.
  - destruct (extractPathParam p typeTable lociTable)
      as [[pp|e']|w] eqn:Hp; cbn; try discriminate.
    + intros H. destruct (IH _ H) as (q & Hin & Hq). eauto.
    + intros [= <-]. eauto.
Qed.

Lemma extractAll_first_throw
    (before after : list (PropertySignature TypeNode))
    (p : PropertySignature TypeNode)
    (typeTable : TypeTable) (lociTable : LociTable) (w : string) :
  Forall (fun q => exists pp, extractPathParam q typeTable lociTable
                              = Normal (ok pp)) before ->
  extractPathParam p typeTable lociTable = Throw w ->
  forall acc,
    extractAll (before ++ p :: after)%list typeTable lociTable acc = Throw w.
Proof.
  intros H Hp.
  induction H as [|q before [pp Hq] _ IH]; intros acc; cbn.
  - now rewrite Hp.
  - rewrite Hq. cbn. apply IH.
Qed.

Lemma Forall2_in_right {A B : Type} (R : A -> B -> Prop)
    (l : list A) (l' : list B) (y : B) :
  Forall2 R l l' -> In y l' -> exists x, In x l /\ R x y.
Proof.
  induction 1 as [|a b l l' Hab _ IH]; cbn; [easy|].
  intros [<-|Hin]; [eauto|].
  destruct (IH Hin) as (x & Hx & Hr). eauto.
Qed.

Lemma parsePathParams_ok_inv (parameter : ParameterDeclaration TypeNode)
    (typeTable : TypeTable) (lociTable : LociTable)
    (result : list PathParam) :
  parsePathParams parameter typeTable lociTable = Normal (ok result) ->
  In "pathParams" (decorators parameter)
  /\ param_questionToken parameter = None
  /\ exists properties params,
      param_typeLiteral parameter = Some properties
      /\ Forall2 (fun p pp => extractPathParam p typeTable lociTable
                              = Normal (ok pp)) properties params
      /\ result = sort byName params.
Proof.
  unfold PathParamsParser.parsePathParams, getDecoratorOrThrow.
  destruct (existsb _ (decorators parameter)) eqn:Edec; [|discriminate].
  cbn [bind].
  destruct (param_questionToken parameter) as [pos|]; [cbn; discriminate|].
  cbn [hasQuestionToken]. unfold getParameterTypeAsTypeLiteralOrThrow.
  destruct (param_typeLiteral parameter) as [properties|]; [|discriminate].
  cbn [bind].
  destruct (extractAll properties typeTable lociTable [])
    as [[l|e]|w] eqn:E; cbn [bind]; try discriminate.
  intros [= <-].
  destruct (extractAll_ok_results _ _ _ _ _ E) as (params & Hall & ->).
  repeat split.
  - apply existsb_exists in Edec. destruct Edec as (d & Hin & Heq).
    apply String.eqb_eq in Heq. now subst.
  - exists properties, params. auto.
Qed.

(** ** Properties and declarations *)

(** X7. A property that is extracted is not optional; the path parameter
    has the declared name, which is valid; its type is the one
    [parseType] resolved for the type node, and that type is URL-safe;
    its description is the trimmed text of the documentation; and its
    examples are the successful result of the examples step, absent when
    that step has no result. *)
Theorem extracted_path_param (p : PropertySignature TypeNode)
    (typeTable : TypeTable) (lociTable : LociTable) (pp : PathParam) :
  extractPathParam p typeTable lociTable = Normal (ok pp) ->
  prop_questionToken p = None
  /\ name pp = getPropertyName p
  /\ validName (name pp)
  /\ (exists node,
        prop_typeNode p = Some node
        /\ parseType node typeTable lociTable = ok (type pp))
  /\ isPathParamTypeSafe (type pp) typeTable = true
  /\ description pp
     = option_map (fun doc => trim (getDescription doc)) (getJsDoc p)
  /\ extractPathParamExamples p (type pp) = option_map ok (examples pp).
Proof.
  intros H.
  destruct (extractPathParam_ok_inv p typeTable lociTable pp H)
    as (Hq & Hname & Htype & Hdesc & Hex).
  destruct (extractPathParamName_valid p _ Hname) as [Hn Hvalid].
  destruct (extractPathParamType_ok_inv p typeTable lociTable _ Htype)
    as (node & Hnode & Hparse & Hsafe).
  repeat split; eauto; apply Hvalid.
Qed.

(** X8. Invalid names are rejected before the type is looked at: a
    property that is not optional and whose name holds a character other
    than a letter, a digit, an underscore or a hyphen fails with the
    "may only contain" ParserError, and one whose name is empty fails
    with the "must not be empty" ParserError, both located at the
    property. *)
Theorem invalid_name_rejected (p : PropertySignature TypeNode)
    (typeTable : TypeTable) (lociTable : LociTable) :
  prop_questionToken p = None ->
  ((exists c, In c (list_ascii_of_string (getPropertyName p))
              /\ isWordOrHyphen c = false) ->
   extractPathParam p typeTable lociTable
   = Normal (err (newParserError
       "@pathParams property name may only contain alphanumeric, underscore and hyphen characters"
       (here p))))
  /\ (getPropertyName p = EmptyString ->
      extractPathParam p typeTable lociTable
      = Normal (err (newParserError
                       "@pathParams property name must not be empty"
                       (here p)))).
Proof.
  intros Hq. unfold PathParamsParser.extractPathParam, extractPathParamName.
  rewrite Hq. cbn [hasQuestionToken]. split.
  - intros Hc. apply forallb_string_exists in Hc.
    unfold test_name_pattern. now rewrite Hc.
  - intros ->. reflexivity.
Qed.

(** X9. For a property that is not optional and has a valid name, the type
    decides: without a type node the call throws; an error of [parseType]
    is returned as it is; and a resolved type that is not URL-safe fails
    with the "URL-safe" ParserError located at the property. *)
Theorem type_resolution_outcomes (p : PropertySignature TypeNode)
    (typeTable : TypeTable) (lociTable : LociTable) :
  prop_questionToken p = None ->
  validName (getPropertyName p) ->
  (prop_typeNode p = None ->
   exists w, extractPathParam p typeTable lociTable = Throw w)
  /\ (forall node e,
         prop_typeNode p = Some node ->
         parseType node typeTable lociTable = err e ->
         extractPathParam p typeTable lociTable = Normal (err e))
  /\ (forall node t,
         prop_typeNode p = Some node ->
         parseType node typeTable lociTable = ok t ->
         isPathParamTypeSafe t typeTable = false ->
         extractPathParam p typeTable lociTable
         = Normal (err (newParserError
             "path parameter type may only be a URL-safe type, or an array of URL-safe types"
             (here p)))).
Proof.
  intros Hq Hvalid. unfold PathParamsParser.extractPathParam.
  rewrite Hq, (validName_accepted p Hvalid). cbn [hasQuestionToken].
  unfold PathParamsParser.extractPathParamType, getTypeNodeOrThrow.
  repeat split.
  - intros ->. cbn. eauto.
  - intros node e -> Hp. cbn. now rewrite Hp.
  - intros node t -> Hp Hs. cbn. now rewrite Hp, Hs.
Qed.

(** X10. Every failure of a property that does not come from [parseType]
    is located in the file of the property, at the position of the
    property or of its question token. *)
Theorem failure_is_located (p : PropertySignature TypeNode)
    (typeTable : TypeTable) (lociTable : LociTable) (e : ParserError) :
  extractPathParam p typeTable lociTable = Normal (err e) ->
  (exists node, prop_typeNode p = Some node
                /\ parseType node typeTable lociTable = err e)
  \/ (file (location e) = prop_filePath p
      /\ (position (location e) = prop_pos p
          \/ prop_questionToken p = Some (position (location e)))).
Proof.
  intros H.
  destruct (extractPathParam_err_inv p typeTable lociTable e H)
    as [(pos & Hq & ->) | (Hq & [Hparse | (msg & ->)])].
  - right. cbn. auto.
  - now left.
  - right. cbn. auto.
Qed.

(** X11. When [parsePathParams] succeeds, the parameter carries the
    [pathParams] decorator, is not optional and has a type literal, every
    property of it was extracted, and the result is a rearrangement of
    the extracted path parameters, one for each property. *)
Theorem successful_parse (parameter : ParameterDeclaration TypeNode)
    (typeTable : TypeTable) (lociTable : LociTable)
    (result : list PathParam) :
  parsePathParams parameter typeTable lociTable = Normal (ok result) ->
  In "pathParams" (decorators parameter)
  /\ param_questionToken parameter = None
  /\ exists properties params,
      param_typeLiteral parameter = Some properties
      /\ Forall2 (fun p pp => extractPathParam p typeTable lociTable
                              = Normal (ok pp)) properties params
      /\ Permutation result params
      /\ length result = length properties.
Proof.
  intros H.
  destruct (parsePathParams_ok_inv parameter typeTable lociTable result H)
    as (Hdec & Hq & properties & params & Hlit & Hall & ->).
  repeat split; try assumption.
  exists properties, params. repeat split; try assumption.
  - apply sort_perm.
  - rewrite (Permutation_length (sort_perm byName params)).
    symmetry. eapply Forall2_length. exact Hall.
Qed.

(** X12. Every path parameter of a successful result belongs to a property
    of the declaration, has a valid name (not empty; letters, digits,
    underscores and hyphens only) and a URL-safe type. *)
Theorem returned_path_params_are_valid
    (parameter : ParameterDeclaration TypeNode)
    (typeTable : TypeTable) (lociTable : LociTable)
    (result : list PathParam) (pp : PathParam) :
  parsePathParams parameter typeTable lociTable = Normal (ok result) ->
  In pp result ->
  validName (name pp)
  /\ isPathParamTypeSafe (type pp) typeTable = true
  /\ exists properties p,
      param_typeLiteral parameter = Some properties
      /\ In p properties
      /\ prop_questionToken p = None
      /\ getPropertyName p = name pp.
Proof.
  intros H Hin.
  destruct (parsePathParams_ok_inv parameter typeTable lociTable result H)
    as (_ & _ & properties & params & Hlit & Hall & ->).
  apply (Permutation_in _ (sort_perm byName params)) in Hin.
  destruct (Forall2_in_right _ _ _ _ Hall Hin) as (p & Hp & Hext).
  destruct (extractPathParam_ok_inv p typeTable lociTable pp Hext)
    as (Hq & Hname & Htype & _).
  destruct (extractPathParamName_valid p _ Hname) as [Hn Hvalid].
  destruct (extractPathParamType_ok_inv p typeTable lociTable _ Htype)
    as (node & _ & _ & Hsafe).
  repeat split; try assumption; try apply Hvalid.
  exists properties, p. auto.
Qed.

(** X13. Properties are processed in declaration order and the first one
    that is not extracted decides: when every property before it is
    extracted, its failure is the failure of [parsePathParams], and if it
    throws, [parsePathParams] throws the same; the properties after it
    play no part. *)
Theorem first_failing_property_decides
    (parameter : ParameterDeclaration TypeNode)
    (typeTable : TypeTable) (lociTable : LociTable)
    (before after : list (PropertySignature TypeNode))
    (p : PropertySignature TypeNode) :
  In "pathParams" (decorators parameter) ->
  param_questionToken parameter = None ->
  param_typeLiteral parameter = Some (before ++ p :: after)%list ->
  Forall (fun q => exists pp, extractPathParam q typeTable lociTable
                              = Normal (ok pp)) before ->
  (forall e, extractPathParam p typeTable lociTable = Normal (err e) ->
             parsePathParams parameter typeTable lociTable = Normal (err e))
  /\ (forall w, extractPathParam p typeTable lociTable = Throw w ->
                parsePathParams parameter typeTable lociTable = Throw w).
Proof.
  intros Hdec Hq Hlit Hbefore.
  unfold PathParamsParser.parsePathParams.
  rewrite (getDecoratorOrThrow_present _ _ _ Hdec), Hq.
  cbn [bind hasQuestionToken].
  unfold getParameterTypeAsTypeLiteralOrThrow. rewrite Hlit. cbn [bind].
  split.
  - intros e He.
    now rewrite (extractAll_first_failure _ _ _ _ _ _ before after p
                   typeTable lociTable [] e Hbefore He).
  - intros w Hw.
    now rewrite (extractAll_first_throw before after p typeTable lociTable
                   w Hbefore Hw).
Qed.

(** X14. When [parseType] only returns failures of class ParserError, an
    OptionalNotAllowedError returned by [parsePathParams] always points
    at a question token: that of the parameter, or that of one of its
    properties, in the file of that property. *)
Theorem optional_error_points_at_question_token
    (parameter : ParameterDeclaration TypeNode)
    (typeTable : TypeTable) (lociTable : LociTable) (e : ParserError) :
  (forall node e', parseType node typeTable lociTable = err e' ->
                   errorClass e' = ParserErrorClass) ->
  parsePathParams parameter typeTable lociTable = Normal (err e) ->
  errorClass e = OptionalNotAllowedErrorClass ->
  (param_questionToken parameter = Some (position (location e))
   /\ file (location e) = param_filePath parameter)
  \/ exists properties p,
      param_typeLiteral parameter = Some properties
      /\ In p properties
      /\ prop_questionToken p = Some (position (location e))
      /\ file (location e) = prop_filePath p.
Proof.
  intros HparseType.
  unfold PathParamsParser.parsePathParams, getDecoratorOrThrow.
  destruct (existsb _ (decorators parameter)); [|discriminate].
  cbn [bind].
  destruct (param_questionToken parameter) as [pos|].
  { cbn. intros [= <-] _. left. cbn. auto. }
  cbn [hasQuestionToken]. unfold getParameterTypeAsTypeLiteralOrThrow.
  destruct (param_typeLiteral parameter) as [properties|]; [|discriminate].
  cbn [bind].
  destruct (extractAll properties typeTable lociTable [])
    as [[l|e']|w] eqn:E; cbn [bind]; try discriminate.
  intros [= <-] Hclass. right.
  destruct (extractAll_err_source _ _ _ _ _ E) as (p & Hin & Hp).
  exists properties, p. split; [reflexivity|]. split; [assumption|].
  destruct (extractPathParam_err_inv p typeTable lociTable e' Hp)
    as [(pos & Hq & ->) | (Hq & [(node & _ & Hparse) | (msg & ->)])].
  - cbn. auto.
  - apply HparseType in Hparse. congruence.
  - discriminate Hclass.
Qed.

(** ** The examples field *)

Lemma TypeKind_eqb_neq (a b : TypeKind) : a <> b -> TypeKind_eqb a b = false.
Proof. destruct a, b; cbn; congruence. Qed.

(** X15. For a property that is extracted, the [examples] field is absent
    exactly when the property has no documentation or no [@example] tag
    in it. *)
Theorem examples_absent_iff_no_tags (p : PropertySignature TypeNode)
    (typeTable : TypeTable) (lociTable : LociTable) (pp : PathParam) :
  extractPathParam p typeTable lociTable = Normal (ok pp) ->
  (examples pp = None
   <-> rawExamplesOf p = None \/ rawExamplesOf p = Some []).
Proof.
  intros H.
  destruct (extractPathParam_ok_inv p typeTable lociTable pp H)
    as (_ & _ & _ & _ & Hex).
  split.
  - intros Habsent. rewrite Habsent in Hex. cbn in Hex.
    destruct (rawExamplesOf p) as [[|raw raws]|] eqn:Eraw; auto.
    exfalso. revert Hex.
    now apply (extractPathParamExamples_with_tags _ JSON_parse p (type pp)
                 raw raws).
  - intros Hnone.
    rewrite (extractPathParamExamples_without_tags _ JSON_parse p (type pp)
               Hnone) in Hex.
    destruct (examples pp); [discriminate | reflexivity].
Qed.

(** X16. For a property that is extracted and whose type is not a STRING,
    the [examples] field holds exactly one entry for each [@example]
    tag. *)
Theorem one_example_per_tag_unless_string (p : PropertySignature TypeNode)
    (typeTable : TypeTable) (lociTable : LociTable) (pp : PathParam)
    (raw : option string) (raws : list (option string)) :
  extractPathParam p typeTable lociTable = Normal (ok pp) ->
  kind (type pp) <> STRING ->
  rawExamplesOf p = Some (raw :: raws) ->
  exists l, examples pp = Some l /\ length l = S (length raws).
Proof.
  intros H Hkind Hraw.
  destruct (extractPathParam_ok_inv p typeTable lociTable pp H)
    as (_ & _ & _ & _ & Hex).
  destruct (examples pp) as [l|]; cbn in Hex.
  - exists l. split; [reflexivity|].
    apply (extractPathParamExamples_one_per_tag _ JSON_parse p (type pp)
             (raw :: raws) l Hraw); [|assumption].
    apply Forall_forall. intros r _ v _.
    now rewrite (TypeKind_eqb_neq _ _ Hkind).
  - exfalso. revert Hex.
    now apply (extractPathParamExamples_with_tags _ JSON_parse p (type pp)
                 raw raws).
Qed.

(** X17. Examples are only ever accepted for a property whose category is
    one that [typeOf] can answer: a successful, non-empty result means
    the category of the property is "number", "boolean" or "string". *)
Theorem accepted_examples_need_a_scalar_category
    (p : PropertySignature TypeNode) (type : SpotType)
    (result : list Example) :
  extractPathParamExamples p type = Some (ok result) ->
  result <> [] ->
  typeSpecified type = "number" \/ typeSpecified type = "boolean"
  \/ typeSpecified type = "string".
Proof.
  intros H Hne. destruct (examples_ok_inv p type result H)
    as (comments & _ & _ & _ & _ & _ & Htypes).
  destruct result as [|ex result]; [contradiction|].
  inversion Htypes as [|? ? Hex _]; subst. rewrite <- Hex.
  unfold typeOf. destruct (test_integer_pattern _); auto.
  destruct (example_value ex); auto.
Qed.

End More.

(** ** On concrete declarations *)

Import Fixtures MoreFixtures.

Local Abbreviation examplesOf :=
  (PathParamsParser.extractPathParamExamples JSON_parse_scalar).

Lemma example_names_distinct_witness :
  NoDup (map example_name [one; two]).
Proof.
  apply (example_names_distinct SpotType JSON_parse_scalar twoIntExamples
           int32Type [one; two]).
  reflexivity.
Defined.

Lemma examples_follow_the_tags_witness :
  exists comments,
    rawExamplesOf twoIntExamples = Some (map Some comments)
    /\ comments <> []
    /\ Forall (fun c => skippedComment int32Type c = true
                        \/ acceptable JSON_parse_scalar int32Type c = true)
         comments
    /\ [one; two] = examplesOfComments JSON_parse_scalar int32Type comments.
Proof.
  apply (examples_follow_the_tags SpotType JSON_parse_scalar twoIntExamples
           int32Type [one; two]).
  reflexivity.
Defined.

Lemma example_values_by_kind_witness :
  Forall (fun ex => exists b, example_value ex = VBoolean b)
    [ {| example_name := "yes"; example_value := VBoolean true |} ].
Proof.
  apply (example_values_by_kind SpotType JSON_parse_scalar booleanExample
           booleanType
           [ {| example_name := "yes"; example_value := VBoolean true |} ]).
  - reflexivity.
  - reflexivity.
Defined.

Lemma example_without_comment_witness :
  examplesOf emptyExampleTag int32Type
  = Some (err (newParserError "@pathParams example must not be empty"
                 {| file := "api.ts"; position := 40 |})).
Proof.
  apply (example_without_comment SpotType JSON_parse_scalar emptyExampleTag
           int32Type [Some (exampleComment "one" "1"); None]).
  - reflexivity.
  - simpl. right. left. reflexivity.
Defined.



Lemma extracted_path_param_witness :
  prop_questionToken twoIntExamples = None
  /\ name idParam = getPropertyName twoIntExamples
  /\ validName (name idParam)
  /\ (exists node,
        prop_typeNode twoIntExamples = Some node
        /\ Fixtures.parseType node tt tt = ok (type idParam))
  /\ Fixtures.isPathParamTypeSafe (type idParam) tt = true
  /\ description idParam
     = option_map (fun doc => trim (getDescription doc))
         (getJsDoc twoIntExamples)
  /\ examplesOf twoIntExamples (type idParam)
     = option_map ok (examples idParam).
Proof.
  apply (extracted_path_param SpotType unit unit Fixtures.parseType
           Fixtures.isPathParamTypeSafe JSON_parse_scalar twoIntExamples
           tt tt idParam).
  reflexivity.
Defined.

Lemma invalid_name_rejected_witness :
  extract JSON_parse_scalar malformedNameProperty
  = Normal (err (newParserError
      "@pathParams property name may only contain alphanumeric, underscore and hyphen characters"
      {| file := "api.ts"; position := 40 |}))
  /\ extract JSON_parse_scalar emptyNameProperty
     = Normal (err (newParserError
                      "@pathParams property name must not be empty"
                      {| file := "api.ts"; position := 40 |})).
Proof.
  split.
  - apply (invalid_name_rejected SpotType unit unit Fixtures.parseType
             Fixtures.isPathParamTypeSafe JSON_parse_scalar
             malformedNameProperty tt tt eq_refl).
    exists " "%char. split; [simpl; auto | reflexivity].
  - apply (invalid_name_rejected SpotType unit unit Fixtures.parseType
             Fixtures.isPathParamTypeSafe JSON_parse_scalar
             emptyNameProperty tt tt eq_refl).
    reflexivity.
Defined.

Lemma validName_decide (n : string) :
  n <> EmptyString -> test_name_pattern n = true -> validName n.
Proof.
  intros Hne Hpat. split; [assumption|].
  now apply forallb_string_forall.
Qed.

Lemma type_resolution_outcomes_witness :
  (exists w, extract JSON_parse_scalar untypedProperty = Throw w)
  /\ extract JSON_parse_scalar objectProperty
     = Normal (err (newParserError
         "path parameter type may only be a URL-safe type, or an array of URL-safe types"
         {| file := "api.ts"; position := 40 |})).
Proof.
  split.
  - apply (type_resolution_outcomes SpotType unit unit Fixtures.parseType
             Fixtures.isPathParamTypeSafe JSON_parse_scalar untypedProperty
             tt tt eq_refl).
    + apply validName_decide; [discriminate | reflexivity].
    + reflexivity.
  - assert (Hvalid : validName (getPropertyName objectProperty))
      by (apply validName_decide; [discriminate | reflexivity]).
    destruct (type_resolution_outcomes SpotType unit unit Fixtures.parseType
                Fixtures.isPathParamTypeSafe JSON_parse_scalar objectProperty
                tt tt eq_refl Hvalid) as (_ & _ & Hunsafe).
    apply (Hunsafe objectType objectType); reflexivity.
Defined.

Lemma failure_is_located_witness :
  (exists node, prop_typeNode objectProperty = Some node
                /\ Fixtures.parseType node tt tt
                   = err (newParserError
                       "path parameter type may only be a URL-safe type, or an array of URL-safe types"
                       {| file := "api.ts"; position := 40 |}))
  \/ ("api.ts" = prop_filePath objectProperty
      /\ (40%Z = prop_pos objectProperty
          \/ prop_questionToken objectProperty = Some 40%Z)).
Proof.
  apply (failure_is_located SpotType unit unit Fixtures.parseType
           Fixtures.isPathParamTypeSafe JSON_parse_scalar objectProperty
           tt tt
           (newParserError
              "path parameter type may only be a URL-safe type, or an array of URL-safe types"
              {| file := "api.ts"; position := 40 |})).
  reflexivity.
Defined.

Lemma successful_parse_witness :
  In "pathParams" (decorators (declaration bacProperties))
  /\ param_questionToken (declaration bacProperties) = None
  /\ exists properties params,
      param_typeLiteral (declaration bacProperties) = Some properties
      /\ Forall2 (fun p pp => extract JSON_parse_scalar p = Normal (ok pp))
           properties params
      /\ Permutation [plainParam "a"; plainParam "b"; plainParam "c"] params
      /\ length [plainParam "a"; plainParam "b"; plainParam "c"]
         = length properties.
Proof.
  apply (successful_parse SpotType unit unit Fixtures.parseType
           Fixtures.isPathParamTypeSafe JSON_parse_scalar
           (declaration bacProperties) tt tt
           [plainParam "a"; plainParam "b"; plainParam "c"]).
  reflexivity.
Defined.

Lemma returned_path_params_are_valid_witness :
  validName (name (plainParam "b"))
  /\ Fixtures.isPathParamTypeSafe (type (plainParam "b")) tt = true
  /\ exists properties p,
      param_typeLiteral (declaration bacProperties) = Some properties
      /\ In p properties
      /\ prop_questionToken p = None
      /\ getPropertyName p = name (plainParam "b").
Proof.
  apply (returned_path_params_are_valid SpotType unit unit Fixtures.parseType
           Fixtures.isPathParamTypeSafe JSON_parse_scalar
           (declaration bacProperties) tt tt
           [plainParam "a"; plainParam "b"; plainParam "c"]).
  - reflexivity.
  - simpl. right. left. reflexivity.
Defined.

Lemma first_failing_property_decides_witness :
  parse JSON_parse_scalar (declaration validUnsafeUntyped)
  = Normal (err (newParserError
      "path parameter type may only be a URL-safe type, or an array of URL-safe types"
      {| file := "api.ts"; position := 40 |})).
Proof.
  apply (first_failing_property_decides SpotType unit unit Fixtures.parseType
           Fixtures.isPathParamTypeSafe JSON_parse_scalar
           (declaration validUnsafeUntyped) tt tt
           [property "a" None stringType None] [untypedProperty]
           (property "filter" None objectType None)).
  - simpl. left. reflexivity.
  - reflexivity.
  - reflexivity.
  - repeat constructor. eexists. reflexivity.
  - reflexivity.
Defined.

Lemma optional_error_points_at_question_token_witness :
  (param_questionToken (declaration validThenOptional) = Some 57%Z
   /\ "api.ts" = param_filePath (declaration validThenOptional))
  \/ exists properties p,
      param_typeLiteral (declaration validThenOptional) = Some properties
      /\ In p properties
      /\ prop_questionToken p = Some 57%Z
      /\ "api.ts" = prop_filePath p.
Proof.
  apply (optional_error_points_at_question_token SpotType unit unit
           Fixtures.parseType Fixtures.isPathParamTypeSafe JSON_parse_scalar
           (declaration validThenOptional) tt tt
           (newOptionalNotAllowedError
              "@pathParams property cannot be optional"
              {| file := "api.ts"; position := 57 |})).
  - intros node e' H. discriminate H.
  - reflexivity.
  - reflexivity.
Defined.

Lemma examples_absent_iff_no_tags_witness :
  examples (plainParam "a") = None
  <-> rawExamplesOf (property "a" None stringType None) = None
      \/ rawExamplesOf (property "a" None stringType None) = Some [].
Proof.
  apply (examples_absent_iff_no_tags SpotType unit unit Fixtures.parseType
           Fixtures.isPathParamTypeSafe JSON_parse_scalar
           (property "a" None stringType None) tt tt (plainParam "a")).
  reflexivity.
Defined.

Lemma one_example_per_tag_unless_string_witness :
  exists l, examples idParam = Some l /\ length l = 2%nat.
Proof.
  apply (one_example_per_tag_unless_string SpotType unit unit
           Fixtures.parseType Fixtures.isPathParamTypeSafe JSON_parse_scalar
           twoIntExamples tt tt idParam
           (Some (exampleComment " one " " 1 "))
           [Some (exampleComment "two" "2")]).
  - reflexivity.
  - discriminate.
  - reflexivity.
Defined.

Lemma accepted_examples_need_a_scalar_category_witness :
  typeSpecified int32Type = "number" \/ typeSpecified int32Type = "boolean"
  \/ typeSpecified int32Type = "string".
Proof.
  apply (accepted_examples_need_a_scalar_category SpotType JSON_parse_scalar
           twoIntExamples int32Type [one; two]).
  - reflexivity.
  - discriminate.
Defined.

End PathParamsParserMore.

(* ===================================================================== *)
(** * Further properties of the Express server generator *)
(* ===================================================================== *)

Module ExpressServerMore.
Import JS ExpressServer ExpressServerSpec HandlerSpec.
Import ExpressServerFacts.

(** ** [uniq] and [compact] on strings *)

Lemma existsb_eqb_In (x : string) (l : list string) :
  existsb (String.eqb x) l = true <-> In x l.
Proof.
  rewrite existsb_exists. split.
  - intros (y & Hy & E). apply String.eqb_eq in E. now subst.
  - intros H. exists x. split; [assumption | apply String.eqb_refl].
Qed.

Lemma uniq_aux_In (l : list string) :
  forall seen x,
    In x (uniq_aux seen l) <-> In x l /\ ~ In x seen.
Proof.
  induction l as [|y l IH]; intros seen x; cbn.
  - tauto.
  - destruct (existsb (String.eqb y) seen) eqn:E.
    + apply existsb_eqb_In in E. rewrite IH.
      split; [tauto|]. intros [[<-|H] Hn]; tauto.
    + assert (Hy : ~ In y seen).
      { intros H. apply existsb_eqb_In in H. congruence. }
      cbn. rewrite IH. cbn.
      destruct (string_dec y x) as [<-|Hne]; [tauto|]. tauto.
Qed.

Lemma uniq_aux_NoDup (l : list string) :
  forall seen, NoDup (uniq_aux seen l).
Proof.
  induction l as [|y l IH]; intros seen; cbn.
  - constructor.
  - destruct (existsb (String.eqb y) seen); [apply IH|].
    constructor; [|apply IH].
    rewrite uniq_aux_In. cbn. tauto.
Qed.

Lemma compact_strings_In (l : list (option string)) (x : string) :
  In x (compact_strings l) <-> In (Some x) l /\ x <> EmptyString.
Proof.
  unfold compact_strings.
  induction l as [|[[|c y]|] l IH]; cbn.
  - tauto.
  - rewrite IH. split; [tauto|]. intros [[H|H] Hne]; [|tauto].
    injection H as <-. contradiction.
  - rewrite IH. split.
    + intros [<-|H]; [split; [now left | discriminate] | tauto].
    + intros [[H|H] Hne]; [left; now injection H | tauto].
  - rewrite IH. split; [tauto|]. intros [[H|H] Hne]; [discriminate | tauto].
Qed.

Section More.

Variable IRType : Type.
Variable TSTypeNode : Type.
Variable isVoid : Api IRType -> IRType -> bool.
Variable typeNode : IRType -> TSTypeNode.
Variable promiseTypeNode : IRType -> TSTypeNode.
Variable endpointPropertyTypeName :
  string -> string -> option string -> string.
Variable validatorName : string -> string.
Variable validateStatement :
  Expression TSTypeNode -> string -> string -> Statement TSTypeNode.
Variable gatherTypes : Endpoint IRType -> list IRType.
Variable typeReferenceName : IRType -> option string.
Variable integerConstant : IntOrNaN -> IRType.
Variable NUMBER : IRType.
Variable objectType : list (string * IRType) -> IRType.
Variable unionType : list IRType -> IRType.
Variable parseInt : string -> IntOrNaN.

Local Abbreviation generateValidateAndSendResponse :=
  (generateValidateAndSendResponse (IRType := IRType)
     endpointPropertyTypeName validatorName validateStatement).
Local Abbreviation generateEndpointRoute :=
  (generateEndpointRoute isVoid endpointPropertyTypeName validatorName
     validateStatement).
Local Abbreviation generateExpressServerSource_statements :=
  (generateExpressServerSource_statements isVoid endpointPropertyTypeName
     validatorName validateStatement).
Local Abbreviation generateEndpointHandlerSource_statements :=
  (generateEndpointHandlerSource_statements isVoid typeNode promiseTypeNode
     gatherTypes typeReferenceName integerConstant NUMBER objectType
     unionType parseInt).
Local Abbreviation getTypeNamesForEndpoint :=
  (getTypeNamesForEndpoint gatherTypes typeReferenceName).
Local Abbreviation argumentSources :=
  (argumentSources TSTypeNode isVoid endpointPropertyTypeName).
Local Abbreviation bindAndValidate :=
  (bindAndValidate validatorName validateStatement).

(** ** The handler body *)

Lemma pathParamStatements_sources (endpointName : string)
    (endpoint : Endpoint IRType) :
  pathParamStatements endpointPropertyTypeName validatorName
    validateStatement endpointName endpoint
  = flat_map bindAndValidate
      (map (fun '(name, _) =>
              {| argumentName := name;
                 argumentValue :=
                   PropertyAccess
                     (PropertyAccess (Identifier "req") "params") name;
                 validatedAs :=
                   endpointPropertyTypeName endpointName "param" (Some name);
                 failureMessage := "Invalid path parameter " ++ name |})
         (dynamicComponents (path endpoint))).
Proof.
  unfold pathParamStatements, flatten.
  induction (path endpoint) as [|[content|name type] rest IH].
  - reflexivity.
  - exact IH.
  - cbn [map compact concat dynamicComponents flat_map].
    rewrite IH. reflexivity.
Qed.

Lemma headerStatements_sources (endpointName : string)
    (endpoint : Endpoint IRType) :
  headerStatements endpointPropertyTypeName validatorName
    validateStatement endpointName endpoint
  = flat_map bindAndValidate
      (map (fun '(headerName, header) =>
              {| argumentName := headerName;
                 argumentValue :=
                   ElementAccess
                     (PropertyAccess (Identifier "req") "headers")
                     (StringLiteral (headerFieldName header));
                 validatedAs :=
                   endpointPropertyTypeName endpointName "header"
                     (Some headerName);
                 failureMessage :=
                   "Invalid header " ++ headerFieldName header |})
         (headers endpoint)).
Proof.
  unfold headerStatements, flatten.
  induction (headers endpoint) as [|[headerName header] rest IH].
  - reflexivity.
  - cbn [map concat flat_map]. rewrite IH. reflexivity.
Qed.

Lemma requestStatements_sources (api : Api IRType) (endpointName : string)
    (endpoint : Endpoint IRType) :
  requestStatements isVoid endpointPropertyTypeName validatorName
    validateStatement api endpointName endpoint
  = flat_map bindAndValidate
      (if isVoid api (requestType endpoint) then []
       else [ {| argumentName := "request";
                 argumentValue := PropertyAccess (Identifier "req") "body";
                 validatedAs :=
                   endpointPropertyTypeName endpointName "request" None;
                 failureMessage := "Invalid request" |} ]).
Proof.
  unfold requestStatements.
  now destruct (isVoid api (requestType endpoint)).
Qed.

Lemma endpointCall_sources (api : Api IRType) (endpointName : string)
    (endpoint : Endpoint IRType) :
  endpointCall TSTypeNode isVoid api endpointName endpoint
  = Call (Identifier endpointName)
      (map (fun a => Identifier (argumentName a))
         (argumentSources api endpointName endpoint)).
Proof.
  unfold endpointCall, HandlerSpec.argumentSources.
  rewrite (compact_dynamic IRType (fun name _ => Identifier name)).
  rewrite !map_app, !map_map. f_equal. f_equal; [|f_equal].
  - now destruct (isVoid api (requestType endpoint)).
  - apply map_ext. now intros [name type].
  - apply map_ext. now intros [headerName header].
Qed.

Lemma arguments_bound_and_validated_aux (api : Api IRType)
    (endpointName : string) (endpoint : Endpoint IRType) :
  generateEndpointRoute api endpointName endpoint
  = ExpressionStatement
      (Call
         (PropertyAccess (Identifier "app") (toLowerCase (method endpoint)))
         [ StringLiteral (routeTemplate (path endpoint));
           ArrowFunction [AsyncKeyword]
             [ {| parameter_name := "req"; parameter_type := None |};
               {| parameter_name := "res"; parameter_type := None |} ]
             (Block
                (flat_map bindAndValidate
                   (argumentSources api endpointName endpoint)
                 ++ [ VariableStatement
                        [ ("response",
                           Await
                             (Call (Identifier endpointName)
                                (map (fun a => Identifier (argumentName a))
                                   (argumentSources api endpointName
                                      endpoint)))) ]
                        Const ]
                 ++ generateValidateAndSendResponse endpointName endpoint
                )%list true) ]).
Proof.
  unfold ExpressServer.generateEndpointRoute.
  rewrite pathString_routeTemplate, endpointCall_sources.
  rewrite requestStatements_sources, pathParamStatements_sources,
    headerStatements_sources.
  unfold HandlerSpec.argumentSources.
  rewrite !flat_map_app, <- !app_assoc. reflexivity.
Qed.

(** X18. The handler of a route first binds and validates, one after the
    other, every argument of the endpoint function, in the order of the
    call: [const request = req.body] ("Invalid request") unless the
    request type is void, [const name = req.params.name] ("Invalid path
    parameter name") for each dynamic path component, [const header =
    req.headers["Field-Name"]] ("Invalid header Field-Name") for each
    header; each binding is followed at once by the validation of the
    bound name. Then it awaits the endpoint function on exactly these
    names, and handles the response. *)
Theorem arguments_bound_and_validated (api : Api IRType)
    (endpointName : string) (endpoint : Endpoint IRType) :
  generateEndpointRoute api endpointName endpoint
  = ExpressionStatement
      (Call
         (PropertyAccess (Identifier "app") (toLowerCase (method endpoint)))
         [ StringLiteral (routeTemplate (path endpoint));
           ArrowFunction [AsyncKeyword]
             [ {| parameter_name := "req"; parameter_type := None |};
               {| parameter_name := "res"; parameter_type := None |} ]
             (Block
                (flat_map bindAndValidate
                   (argumentSources api endpointName endpoint)
                 ++ [ VariableStatement
                        [ ("response",
                           Await
                             (Call (Identifier endpointName)
                                (map (fun a => Identifier (argumentName a))
                                   (argumentSources api endpointName
                                      endpoint)))) ]
                        Const ]
                 ++ generateValidateAndSendResponse endpointName endpoint
                )%list true) ]).
Proof. apply arguments_bound_and_validated_aux. Qed.

(** X19. The stub and the call agree: the route calls the endpoint function
    with one identifier for each parameter of the generated stub, of the
    same name and in the same order; every parameter of the stub is
    typed. *)
Theorem stub_parameters_match_call (api : Api IRType)
    (endpointName : string) (endpoint : Endpoint IRType) :
  exists imports parameters returnType body bindings,
    generateEndpointHandlerSource_statements api endpointName endpoint
    = (imports
       ++ [ FunctionDeclaration [ExportKeyword; AsyncKeyword] endpointName
              parameters returnType body ])%list
    /\ generateEndpointRoute api endpointName endpoint
       = ExpressionStatement
           (Call
              (PropertyAccess (Identifier "app")
                 (toLowerCase (method endpoint)))
              [ StringLiteral (routeTemplate (path endpoint));
                ArrowFunction [AsyncKeyword]
                  [ {| parameter_name := "req"; parameter_type := None |};
                    {| parameter_name := "res"; parameter_type := None |} ]
                  (Block
                     (bindings
                      ++ [ VariableStatement
                             [ ("response",
                                Await
                                  (Call (Identifier endpointName)
                                     (map (fun q =>
                                             Identifier (parameter_name q))
                                        parameters))) ]
                             Const ]
                      ++ generateValidateAndSendResponse endpointName
                           endpoint)%list true) ])
    /\ Forall (fun q => parameter_type q <> None) parameters.
Proof.
  eexists. exists (handlerParameters isVoid typeNode api endpoint).
  eexists. eexists.
  exists (requestStatements isVoid endpointPropertyTypeName validatorName
            validateStatement api endpointName endpoint
          ++ pathParamStatements endpointPropertyTypeName validatorName
               validateStatement endpointName endpoint
          ++ headerStatements endpointPropertyTypeName validatorName
               validateStatement endpointName endpoint)%list.
  split; [|split].
  - unfold ExpressServer.generateEndpointHandlerSource_statements.
    reflexivity.
  - unfold ExpressServer.generateEndpointRoute.
    rewrite pathString_routeTemplate. unfold endpointCall.
    unfold handlerParameters. rewrite !map_app, !map_map.
    rewrite (compact_dynamic IRType (fun name _ => Identifier name)).
    rewrite (compact_dynamic IRType
               (fun name type => createTypedParameter name (typeNode type))).
    rewrite map_map.
    replace (map (fun q => Identifier (parameter_name q))
               (if isVoid api (requestType endpoint) then []
                else [createTypedParameter "request"
                        (typeNode (requestType endpoint))]))
      with (if isVoid api (requestType endpoint) then []
            else [Identifier (TSTypeNode := TSTypeNode)
                    PARSED_REQUEST_VARIABLE])
      by now destruct (isVoid api (requestType endpoint)).
    rewrite (map_ext
               (fun x : string * IRType =>
                  Identifier (TSTypeNode := TSTypeNode)
                    (parameter_name (let '(name, type) := x in
                                     createTypedParameter name
                                       (typeNode type))))
               (fun '(name, _) => Identifier name))
      by now intros [name type].
    rewrite (map_ext
               (fun x : string * Header IRType =>
                  Identifier (TSTypeNode := TSTypeNode)
                    (parameter_name (let '(headerName, header) := x in
                                     createTypedParameter headerName
                                       (typeNode (header_type header)))))
               (fun x => Identifier (fst x)))
      by now intros [headerName header].
    rewrite <- !app_assoc. reflexivity.
  - unfold handlerParameters.
    rewrite (compact_dynamic IRType
               (fun name type => createTypedParameter name (typeNode type))).
    rewrite !Forall_app. repeat split.
    + destruct (isVoid api (requestType endpoint)); repeat constructor.
      discriminate.
    + apply Forall_forall. intros q Hq. apply in_map_iff in Hq.
      destruct Hq as ([name type] & <- & _). discriminate.
    + apply Forall_forall. intros q Hq. apply in_map_iff in Hq.
      destruct Hq as ([headerName header] & <- & _). discriminate.
Qed.

(** ** The server source *)

(** X20. The server imports what it calls: for every endpoint of the Api,
    the statements hold the import of the endpoint function, by its name,
    from [./endpoints/name], and after it the route of the endpoint, whose
    handler awaits the call of that same name. *)
Theorem endpoint_imported_before_its_route (api : Api IRType)
    (endpointName : string) (endpoint : Endpoint IRType) :
  In (endpointName, endpoint) (endpoints api) ->
  exists before between after bindings arguments,
    generateExpressServerSource_statements api
    = (before
       ++ [ ImportDeclaration (NamedImports [endpointName])
              (StringLiteral ("./endpoints/" ++ endpointName)) ]
       ++ between
       ++ [ generateEndpointRoute api endpointName endpoint ]
       ++ after)%list
    /\ generateEndpointRoute api endpointName endpoint
       = ExpressionStatement
           (Call
              (PropertyAccess (Identifier "app")
                 (toLowerCase (method endpoint)))
              [ StringLiteral (routeTemplate (path endpoint));
                ArrowFunction [AsyncKeyword]
                  [ {| parameter_name := "req"; parameter_type := None |};
                    {| parameter_name := "res"; parameter_type := None |} ]
                  (Block
                     (bindings
                      ++ [ VariableStatement
                             [ ("response",
                                Await (Call (Identifier endpointName)
                                         arguments)) ]
                             Const ]
                      ++ generateValidateAndSendResponse endpointName
                           endpoint)%list true) ]).
Proof.
  intros Hin. apply in_split in Hin.
  destruct Hin as (l1 & l2 & Hl).
  pose (import := fun name : string =>
          ImportDeclaration (TSTypeNode := TSTypeNode) (NamedImports [name])
            (StringLiteral ("./endpoints/" ++ name))).
  pose (route := fun '(name, e) => generateEndpointRoute api name e).
  exists ([ importNamespace TSTypeNode IMPORTED_CORS_NAME "cors";
            importNamespace TSTypeNode IMPORTED_EXPRESS_NAME "express";
            importNamespace TSTypeNode "validators" "./validators" ]
          ++ map import (map fst l1))%list.
  exists (map import (map fst l2)
          ++ [ constStatement PORT_NAME (NumericLiteral "3020");
               constStatement EXPRESS_APP_NAME
                 (Call (Identifier IMPORTED_EXPRESS_NAME) []);
               useStatement (Identifier IMPORTED_CORS_NAME);
               useStatement
                 (PropertyAccess (Identifier IMPORTED_EXPRESS_NAME) "json") ]
          ++ map route l1)%list.
  exists (map route l2 ++ [ listenStatement TSTypeNode ])%list.
  exists (flat_map bindAndValidate
            (argumentSources api endpointName endpoint)).
  exists (map (fun a => Identifier (argumentName a))
            (argumentSources api endpointName endpoint)).
  split.
  - unfold ExpressServer.generateExpressServerSource_statements.
    fold import. fold route.
    rewrite Hl, !map_app. cbn [map fst]. unfold route at 2.
    rewrite <- !app_assoc. reflexivity.
  - apply arguments_bound_and_validated_aux.
Qed.

(** ** The imports of a stub *)

(** X21. The type names a stub imports are the names of the type
    references among the types of the endpoint, each once and none empty.
    When there is none, the stub file is the function declaration alone;
    otherwise it starts with a single import of these names from
    [../types]. *)
Theorem stub_imports_each_type_once (api : Api IRType)
    (endpointName : string) (endpoint : Endpoint IRType) :
  NoDup (getTypeNamesForEndpoint endpoint)
  /\ (forall x,
         In x (getTypeNamesForEndpoint endpoint)
         <-> x <> EmptyString
             /\ exists t, In t (gatherTypes endpoint)
                          /\ typeReferenceName t = Some x)
  /\ exists declaration,
      isImport declaration = false
      /\ generateEndpointHandlerSource_statements api endpointName endpoint
         = match getTypeNamesForEndpoint endpoint with
           | [] => [ declaration ]
           | typeNames =>
               [ ImportDeclaration (NamedImports typeNames)
                   (StringLiteral "../types");
                 declaration ]
           end.
Proof.
  split; [|split].
  - apply uniq_aux_NoDup.
  - intros x. unfold ExpressServer.getTypeNamesForEndpoint, uniq.
    rewrite uniq_aux_In, compact_strings_In, in_map_iff. cbn.
    split.
    + intros [[(t & Ht & Hin) Hne] _]. eauto.
    + intros [Hne (t & Hin & Ht)].
      split; [split; [eauto | assumption] | intros []].
  - unfold ExpressServer.generateEndpointHandlerSource_statements.
    eexists. split; [|destruct (getTypeNamesForEndpoint endpoint);
                      reflexivity].
    reflexivity.
Qed.

End More.

(** ** On concrete endpoints *)

Import Fixtures MoreFixtures.

(** [addItem] is called with the request, the two path parameters and the
    two headers. *)
Example addItem_arguments :
  map (fun a => (argumentName a, failureMessage a))
    (argumentSources string isVoid endpointPropertyTypeName itemsApi
       "addItem" addItem)
  = [ ("request", "Invalid request");
      ("id", "Invalid path parameter id");
      ("item", "Invalid path parameter item");
      ("auth", "Invalid header Authorization");
      ("trace", "Invalid header X-Trace") ].
Proof. reflexivity. Qed.

Example addItem_type_names :
  getTypeNamesForEndpoint gatherTypes typeReferenceName addItem
  = [ "Item"; "Error"; "NotFound" ]
  /\ getTypeNamesForEndpoint gatherTypes typeReferenceName
       {| method := "GET"; path := []; headers := [];
          requestType := "void"; responseType := "string";
          customErrorTypes := []; defaultErrorType := "string" |}
     = [].
Proof. split; reflexivity. Qed.

Lemma endpoint_imported_before_its_route_witness :
  exists before between after bindings arguments,
    generateExpressServerSource_statements isVoid endpointPropertyTypeName
      validatorName validateStatement itemsApi
    = (before
       ++ [ ImportDeclaration (NamedImports ["addItem"])
              (StringLiteral ("./endpoints/" ++ "addItem")) ]
       ++ between
       ++ [ generateEndpointRoute isVoid endpointPropertyTypeName
              validatorName validateStatement itemsApi "addItem" addItem ]
       ++ after)%list
    /\ generateEndpointRoute isVoid endpointPropertyTypeName validatorName
         validateStatement itemsApi "addItem" addItem
       = ExpressionStatement
           (Call
              (PropertyAccess (Identifier "app")
                 (toLowerCase (method addItem)))
              [ StringLiteral (routeTemplate (path addItem));
                ArrowFunction [AsyncKeyword]
                  [ {| parameter_name := "req"; parameter_type := None |};
                    {| parameter_name := "res"; parameter_type := None |} ]
                  (Block
                     (bindings
                      ++ [ VariableStatement
                             [ ("response",
                                Await (Call (Identifier "addItem")
                                         arguments)) ]
                             Const ]
                      ++ generateValidateAndSendResponse
                           endpointPropertyTypeName validatorName
                           validateStatement "addItem" addItem)%list
                     true) ]).
Proof.
  apply (endpoint_imported_before_its_route string string isVoid
           endpointPropertyTypeName validatorName validateStatement
           itemsApi "addItem" addItem).
  simpl. right. left. reflexivity.
Defined.

End ExpressServerMore.
